(** * anonymize_survival: relative survival time and censoring

    A shallow embedding of [src/anonymize_survival.py] and the properties of
    its date reconstruction, validation, cohort filter, study-end censoring
    and survival/censor computation.

    The pandas table is a list of rows, each row a finite map from column
    names to cells; every vectorised statement of [main] is one definition
    over that table. The command-line process is a state-and-exit monad over
    a file system and an event trace. *)

From Stdlib Require Import ZArith Ascii String List Bool Lia DecimalString Sorted.
From stdpp Require Import base tactics option list strings gmap fin_maps.

Local Open Scope string_scope.
Local Open Scope list_scope.
Local Open Scope Z_scope.

(** ** Cells *)

(** A cell is the Python object that sits in one position of the table.
    [CStr], [CInt], [CNaN] and [COther] are what a reader can deliver
    ([COther] is any further object -- a float, a bool, [None] -- known by
    the text that [str()] gives for it); [CTimestamp] (whole days since 1970-01-01,
    the time of day is always midnight here), [CNaT] and [CTimedelta] are
    made by the pipeline itself. *)
Inductive cell : Type :=
  | CStr (s : string)
  | CInt (z : Z)
  | CNaN
  | COther (text : string)
  | CTimestamp (days : Z)
  | CNaT
  | CTimedelta (days : Z).

Global Instance cell_eq_dec : EqDecision cell.
Proof. solve_decision. Defined.

(** ** Calendar arithmetic (proleptic Gregorian, as [datetime] has it) *)

Module Calendar.

Definition is_leap (y : Z) : bool :=
  (y mod 4 =? 0) && (negb (y mod 100 =? 0) || (y mod 400 =? 0)).

Definition days_in_month (y m : Z) : Z :=
  match m with
  | 1 | 3 | 5 | 7 | 8 | 10 | 12 => 31
  | 4 | 6 | 9 | 11 => 30
  | 2 => if is_leap y then 29 else 28
  | _ => 0
  end.

Definition days_before_year (y : Z) : Z :=
  let p := y - 1 in p * 365 + p / 4 - p / 100 + p / 400.

Definition days_before_month (y m : Z) : Z :=
  match m with
  | 1 => 0 | 2 => 31 | 3 => 59 | 4 => 90 | 5 => 120 | 6 => 151
  | 7 => 181 | 8 => 212 | 9 => 243 | 10 => 273 | 11 => 304 | 12 => 334
  | _ => 0
  end + (if (2 <? m) && is_leap y then 1 else 0).

(** Ordinal of a date, 0001-01-01 being day 1. *)
Definition ymd2ord (y m d : Z) : Z :=
  days_before_year y + days_before_month y m + d.

(** Ordinal of 1970-01-01. *)
Definition epoch_ord : Z := 719163.

Definition days_from_civil (y m d : Z) : Z := ymd2ord y m d - epoch_ord.

Definition valid_ymd (y m d : Z) : bool :=
  (1 <=? m) && (m <=? 12) && (1 <=? d) && (d <=? days_in_month y m).

(** The inverse direction, used only to print a timestamp. *)
Definition civil_from_days (z : Z) : Z * Z * Z :=
  let z := z + 719468 in
  let era := z / 146097 in
  let doe := z - era * 146097 in
  let yoe := (doe - doe / 1460 + doe / 36524 - doe / 146096) / 365 in
  let y := yoe + era * 400 in
  let doy := doe - (365 * yoe + yoe / 4 - yoe / 100) in
  let mp := (5 * doy + 2) / 153 in
  let d := doy - (153 * mp + 2) / 5 + 1 in
  let m := if mp <? 10 then mp + 3 else mp - 9 in
  (if m <=? 2 then y + 1 else y, m, d).

End Calendar.

(** ** Text of a cell, as an f-string field prints it *)

Definition str_of_Z (z : Z) : string := NilZero.string_of_int (Z.to_int z).

(** Zero padding to a width of [n] characters. *)
Fixpoint zfill (n : nat) (s : string) : string :=
  match n with
  | O => s
  | S k => if (String.length s <? n)%nat then zfill k ("0" +:+ s) else s
  end.

Definition str_of_timestamp (days : Z) : string :=
  let '(y, m, d) := Calendar.civil_from_days days in
  zfill 4 (str_of_Z y) +:+ "-" +:+ zfill 2 (str_of_Z m) +:+ "-" +:+
  zfill 2 (str_of_Z d) +:+ " 00:00:00".

Definition str_of_timedelta (days : Z) : string :=
  str_of_Z days +:+ (if days <? 0 then " days +00:00:00" else " days 00:00:00").

Definition str_of_cell (c : cell) : string :=
  match c with
  | CStr s => s
  | CInt z => str_of_Z z
  | CNaN => "nan"
  | COther t => t
  | CTimestamp d => str_of_timestamp d
  | CNaT => "NaT"
  | CTimedelta d => str_of_timedelta d
  end.

(** ** [pd.to_datetime(..., format="%Y-%m-%d", errors="coerce")] *)

Module Parse.

Definition is_digit (c : ascii) : bool :=
  let n := nat_of_ascii c in ((48 <=? n) && (n <=? 57))%nat.

Definition digit_val (c : ascii) : Z := Z.of_nat (nat_of_ascii c) - 48.

Definition digit (l : list ascii) : option (Z * list ascii) :=
  match l with
  | c :: r => if is_digit c then Some (digit_val c, r) else None
  | [] => None
  end.

(** One digit is required, a second one is read when it is there. *)
Definition number12 (l : list ascii) : option (Z * list ascii) :=
  '(d1, r) ← digit l;
  match digit r with
  | Some (d2, r') => Some (10 * d1 + d2, r')
  | None => Some (d1, r)
  end.

(** The year is exactly four digits. *)
Definition number4 (l : list ascii) : option (Z * list ascii) :=
  '(d1, r) ← digit l;
  '(d2, r) ← digit r;
  '(d3, r) ← digit r;
  '(d4, r) ← digit r;
  Some (1000 * d1 + 100 * d2 + 10 * d3 + d4, r).

Definition expect_dash (l : list ascii) : option (list ascii) :=
  match l with
  | c :: r => if Ascii.eqb c "-" then Some r else None
  | [] => None
  end.

(** The day and the end of the text. *)
Definition day_end (l : list ascii) : option Z :=
  '(d, r) ← number12 l;
  match r with
  | [] => Some d
  | _ :: _ => None
  end.

(** The month, the dash after it and the day. *)
Definition month_day (l : list ascii) : option (Z * Z) :=
  '(m, r) ← number12 l;
  r ← expect_dash r;
  d ← day_end r;
  Some (m, d).

Definition parse_ymd (s : string) : option (Z * Z * Z) :=
  '(y, r) ← number4 (list_ascii_of_string s);
  r ← expect_dash r;
  '(m, d) ← month_day r;
  Some (y, m, d).

(** Nanosecond timestamps hold whole days from 1677-09-22 to 2262-04-11. *)
Definition max_days : Z := 106751.

Definition in_bounds (days : Z) : bool :=
  (- max_days <=? days) && (days <=? max_days).

End Parse.

(** One element of [pd.to_datetime] on a column of texts: a text that is not
    a date of the format, or a date out of the representable range, is
    coerced to [NaT]. The parser reads ASCII digits without padding and
    keeps to nanosecond timestamps. On a day written after a space, on
    digits outside ASCII and on years outside the nanosecond range the
    versions of pandas do not agree with one another; what is stated below
    of [NaT] is stated of texts that every version refuses. *)
Definition to_datetime (s : string) : cell :=
  match Parse.parse_ymd s with
  | Some (y, m, d) =>
      if Calendar.valid_ymd y m d then
        let t := Calendar.days_from_civil y m d in
        if Parse.in_bounds t then CTimestamp t else CNaT
      else CNaT
  | None => CNaT
  end.

(** ** The table *)

(** A row maps column names to cells; a column the row has no entry for
    reads as missing, the way a frame built from records fills it. *)
Abbreviation row := (gmap string cell).

Record DataFrame : Type := {
  columns : list string;
  rows : list row
}.

Definition getitem (r : row) (c : string) : cell := default CNaN (r !! c).

(** [df[name]], a column as a list of cells. *)
Definition column (name : string) (df : DataFrame) : list cell :=
  map (fun r => getitem r name) (rows df).

(** [df.apply(f, axis=1)] *)
Definition apply_rows {A} (f : row -> A) (df : DataFrame) : list A :=
  map f (rows df).

(** [df[name] = s] *)
Definition setitem (name : string) (s : list cell) (df : DataFrame) : DataFrame :=
  {| columns := if decide (name ∈ columns df) then columns df
                else columns df ++ [name];
     rows := zip_with (fun r c => <[name := c]> r) (rows df) s |}.

(** [df.loc[mask, name] = value] *)
Definition loc_setitem (mask : list bool) (name : string) (value : cell)
    (df : DataFrame) : DataFrame :=
  {| columns := columns df;
     rows := zip_with (fun r (b : bool) => if b then <[name := value]> r else r)
               (rows df) mask |}.

Fixpoint select {A} (l : list A) (mask : list bool) : list A :=
  match l, mask with
  | x :: l', b :: mask' => if b then x :: select l' mask' else select l' mask'
  | _, _ => []
  end.

(** [df.loc[mask, :]] *)
Definition loc_rows (mask : list bool) (df : DataFrame) : DataFrame :=
  {| columns := columns df; rows := select (rows df) mask |}.

Definition isna (c : cell) : bool :=
  match c with
  | CNaN | CNaT => true
  | _ => false
  end.

(** [df.dropna(subset=...)] *)
Definition dropna (subset : list string) (df : DataFrame) : DataFrame :=
  {| columns := columns df;
     rows := List.filter
               (fun r => forallb (fun c => negb (isna (getitem r c))) subset)
               (rows df) |}.

(** Comparisons of a datetime column with a timestamp; [NaT] compares false. *)
Definition cell_le (a b : cell) : bool :=
  match a, b with
  | CTimestamp x, CTimestamp y => x <=? y
  | _, _ => false
  end.

Definition cell_gt (a b : cell) : bool :=
  match a, b with
  | CTimestamp x, CTimestamp y => y <? x
  | _, _ => false
  end.

(** [s == value] for a [str] value: only the same text is equal to it. *)
Definition cell_eq_str (c : cell) (value : string) : bool :=
  match c with
  | CStr s => String.eqb s value
  | _ => false
  end.

(** [s.clip(upper=u)] *)
Definition clip_upper (u : cell) (s : list cell) : list cell :=
  map (fun c => if cell_gt c u then u else c) s.

(** Difference of two datetime columns. *)
Definition cell_sub (a b : cell) : cell :=
  match a, b with
  | CTimestamp x, CTimestamp y => CTimedelta (x - y)
  | _, _ => CNaT
  end.

(** [.dt.days] *)
Definition dt_days (c : cell) : cell :=
  match c with
  | CTimedelta d => CInt d
  | _ => CNaN
  end.

(** [s.replace(d)] for a dict with [str] keys and integer values. *)
Definition replace (d : gmap string Z) (c : cell) : cell :=
  match c with
  | CStr s => match d !! s with
              | Some v => CInt v
              | None => c
              end
  | _ => c
  end.

(** [df[cols]] as [to_csv(index=False)] lays it out: header, then one line
    of cells per row. *)
Definition project (cols : list string) (df : DataFrame) : list (list cell) :=
  map (fun r => map (getitem r) cols) (rows df).

(** ** The program *)

Record Config : Type := {
  inpath : string;
  outpath : string;
  col_index : string;
  col_dod_yyyy : string;
  col_dod_mm : string;
  col_dod_dd : string;
  col_dolc_yyyy : string;
  col_dolc_mm : string;
  col_dolc_dd : string;
  col_vital_status : string;
  vital_status_value_alive : string;
  vital_status_value_deceased : string;
  filetype : string;
  pandas_reader_arguments : string
}.

Definition get_dt_diagnosis (r : row) (col_dod_yyyy col_dod_mm col_dod_dd : string)
    : string :=
  let y := getitem r col_dod_yyyy in
  let m := getitem r col_dod_mm in
  let d := getitem r col_dod_dd in
  str_of_cell y +:+ "-" +:+ str_of_cell m +:+ "-" +:+ str_of_cell d.

Definition get_dt_last_contact (r : row)
    (col_dolc_yyyy col_dolc_mm col_dolc_dd : string) : string :=
  let y := getitem r col_dolc_yyyy in
  let m := getitem r col_dolc_mm in
  let d := getitem r col_dolc_dd in
  str_of_cell y +:+ "-" +:+ str_of_cell m +:+ "-" +:+ str_of_cell d.

Definition END_DATE : cell := to_datetime "2020-12-31".

(** The pure statements of [main], in the order of the source. *)
Module Stage.

Definition add_date_of_diagnosis (cfg : Config) (df : DataFrame) : DataFrame :=
  let dates_diagnosis :=
    apply_rows (fun r => get_dt_diagnosis r (col_dod_yyyy cfg) (col_dod_mm cfg)
                           (col_dod_dd cfg)) df in
  setitem "date_of_diagnosis_yyyymmdd" (map to_datetime dates_diagnosis) df.

Definition add_date_of_last_contact (cfg : Config) (df : DataFrame) : DataFrame :=
  let dates_last_contact :=
    apply_rows (fun r => get_dt_last_contact r (col_dolc_yyyy cfg)
                           (col_dolc_mm cfg) (col_dolc_dd cfg)) df in
  setitem "date_of_last_contact_yyyymmdd" (map to_datetime dates_last_contact) df.

Definition drop_failed_dates (df : DataFrame) : DataFrame :=
  dropna ["date_of_diagnosis_yyyymmdd"; "date_of_last_contact_yyyymmdd"] df.

Definition diagnosed_prior_to_study_end (df : DataFrame) : list bool :=
  map (fun c => cell_le c END_DATE) (column "date_of_diagnosis_yyyymmdd" df).

Definition adjust_vital_status (cfg : Config) (df : DataFrame) : DataFrame :=
  let df := setitem "vital_status_at_study_end"
              (column (col_vital_status cfg) df) df in
  let last_contact_after_study_end :=
    map (fun c => cell_gt c END_DATE) (column "date_of_last_contact_yyyymmdd" df) in
  let deceased :=
    map (fun c => cell_eq_str c (vital_status_value_deceased cfg))
      (column (col_vital_status cfg) df) in
  let deceased_overall_but_alive_at_study_end :=
    zip_with andb last_contact_after_study_end deceased in
  loc_setitem deceased_overall_but_alive_at_study_end
    "vital_status_at_study_end" (CStr (vital_status_value_alive cfg)) df.

Definition clip_last_contact (df : DataFrame) : DataFrame :=
  setitem "date_of_last_contact_clipped_yyyymmdd"
    (clip_upper END_DATE (column "date_of_last_contact_yyyymmdd" df)) df.

Definition add_survivalA (df : DataFrame) : DataFrame :=
  let df := setitem "survivalA"
              (zip_with cell_sub
                 (column "date_of_last_contact_clipped_yyyymmdd" df)
                 (column "date_of_diagnosis_yyyymmdd" df)) df in
  setitem "survivalA" (map dt_days (column "survivalA" df)) df.

(** The dict literal [{alive: 0, deceased: 1}]: a later equal key wins. *)
Definition censor_dict (cfg : Config) : gmap string Z :=
  <[vital_status_value_deceased cfg := 1]>
    (<[vital_status_value_alive cfg := 0]> ∅).

Definition add_censor (cfg : Config) (df : DataFrame) : DataFrame :=
  setitem "censorA.0yes.1no"
    (map (replace (censor_dict cfg)) (column "vital_status_at_study_end" df)) df.

Definition cols (cfg : Config) : list string :=
  [col_index cfg; "censorA.0yes.1no"; "survivalA"].

(** Lines 195-264 without the console output. *)
Definition transform (cfg : Config) (df : DataFrame) : DataFrame :=
  let df := add_date_of_diagnosis cfg df in
  let df := add_date_of_last_contact cfg df in
  let df := drop_failed_dates df in
  let diagnosed_prior_to_study_end := diagnosed_prior_to_study_end df in
  let df := adjust_vital_status cfg df in
  let df := clip_last_contact df in
  let df := loc_rows diagnosed_prior_to_study_end df in
  let df := add_survivalA df in
  add_censor cfg df.

End Stage.

(** ** The process: file system, console and exit *)

Inductive file : Type :=
  | Raw (content : string)
  | Csv (header : list string) (body : list (list cell)).

Inductive color : Type := Red | Yellow | Green.

Inductive message : Type :=
  | MsgOutputPathExists (outpath : string)
  | MsgMissingColumns (missing_cols : list string)
  | MsgAliveAbsent (col_vital_status value : string)
  | MsgDeceasedAbsent (col_vital_status value : string)
  | MsgSavingTo (outpath : string).

Inductive printed : Type :=
  | PrVitalStatusCounts (s : list cell)
  | PrNumberOfSamples (n : nat)
  | PrDroppingRows
  | PrUsingStudyEndDate (d : cell)
  | PrModifyingVitalStatus (d : cell)
  | PrClipping (d : cell)
  | PrKeeping (n : nat) (d : cell)
  | PrOriginalData (n : nat)
  | PrCalculatingSurvival
  | PrCreatingCensor
  | PrSavingColumns (cols : list string)
  | PrSamples (n : nat).

Inductive event : Type :=
  | EvPathExists (path : string)
  | EvSecho (m : message) (fg : color)
  | EvPrint (p : printed)
  | EvRead (filetype path : string)
  | EvToCsv (path : string).

Inductive exn : Type :=
  | JSONDecodeError
  | NotImplementedError
  | FileNotFoundError
  | ReaderError.

Record World : Type := {
  fs : gmap string file;
  trace : list event
}.

Inductive result (A : Type) : Type :=
  | Ok (a : A)
  | SysExit (code : Z)
  | Raised (e : exn).
Arguments Ok {A} a.
Arguments SysExit {A} code.
Arguments Raised {A} e.

Definition M (A : Type) : Type := World -> result A * World.

Global Instance M_ret : MRet M := fun A a w => (Ok a, w).

Global Instance M_bind : MBind M := fun A B k m w =>
  match m w with
  | (Ok a, w') => k a w'
  | (SysExit c, w') => (SysExit c, w')
  | (Raised e, w') => (Raised e, w')
  end.

Definition emit (e : event) : M unit := fun w =>
  (Ok tt, {| fs := fs w; trace := trace w ++ [e] |}).

Definition sys_exit {A} (code : Z) : M A := fun w => (SysExit code, w).

Definition raise {A} (e : exn) : M A := fun w => (Raised e, w).

Definition secho (m : message) (fg : color) : M unit := emit (EvSecho m fg).

Definition print (p : printed) : M unit := emit (EvPrint p).

(** [Path(p).exists()] *)
Definition path_exists (p : string) : M bool := fun w =>
  (Ok (bool_decide (is_Some (fs w !! p))),
   {| fs := fs w; trace := trace w ++ [EvPathExists p] |}).

(** The collaborators outside the program: the JSON decoder and the three
    pandas readers, each from the bytes of a file and the keyword arguments
    to a table, or failing. *)
Record Readers (kwargs : Type) : Type := {
  json_loads : string -> option kwargs;
  read_csv : file -> kwargs -> option DataFrame;
  read_excel : file -> kwargs -> option DataFrame;
  read_sas : file -> kwargs -> option DataFrame
}.
Arguments json_loads {kwargs} _ _.
Arguments read_csv {kwargs} _ _ _.
Arguments read_excel {kwargs} _ _ _.
Arguments read_sas {kwargs} _ _ _.

Definition run_reader (filetype path : string)
    (reader : file -> option DataFrame) : M DataFrame := fun w =>
  let w' := {| fs := fs w; trace := trace w ++ [EvRead filetype path] |} in
  match fs w !! path with
  | None => (Raised FileNotFoundError, w')
  | Some f => match reader f with
              | Some df => (Ok df, w')
              | None => (Raised ReaderError, w')
              end
  end.

(** [df[cols].to_csv(outpath, index=False)] *)
Definition to_csv (path : string) (cols : list string) (df : DataFrame) : M unit :=
  fun w =>
    (Ok tt, {| fs := <[path := Csv cols (project cols df)]> (fs w);
               trace := trace w ++ [EvToCsv path] |}).

Definition lower_ascii (c : ascii) : ascii :=
  let n := nat_of_ascii c in
  if ((65 <=? n) && (n <=? 90))%nat then ascii_of_nat (n + 32) else c.

Fixpoint lower (s : string) : string :=
  match s with
  | EmptyString => EmptyString
  | String c s' => String (lower_ascii c) (lower s')
  end.

Definition count_true (mask : list bool) : nat :=
  length (List.filter (fun b : bool => b) mask).

Definition expected_cols (cfg : Config) : list string :=
  [col_index cfg; col_dod_yyyy cfg; col_dod_mm cfg; col_dod_dd cfg;
   col_dolc_yyyy cfg; col_dolc_mm cfg; col_dolc_dd cfg; col_vital_status cfg].

(** [value in set(df[col_vital_status])] *)
Definition occurs (value : string) (cfg : Config) (df : DataFrame) : bool :=
  existsb (fun c => cell_eq_str c value) (column (col_vital_status cfg) df).

(** Lines 153-190: the columns and the two values of the vital status. *)
Definition check_table (cfg : Config) (df : DataFrame) : M unit :=
  (* Test that columns are present in the data. *)
  let expected_cols := expected_cols cfg in
  let mask := map (fun c => bool_decide (c ∈ columns df)) expected_cols in
  (if negb (forallb (fun b : bool => b) mask) then
     let missing_cols := select expected_cols (map negb mask) in
     secho (MsgMissingColumns missing_cols) Red;; sys_exit 1
   else mret tt);;
  (* Check if vital status column contains the alive / deceased values. *)
  (if negb (occurs (vital_status_value_alive cfg) cfg df) then
     secho (MsgAliveAbsent (col_vital_status cfg) (vital_status_value_alive cfg))
       Red;;
     sys_exit 1
   else mret tt);;
  (if negb (occurs (vital_status_value_deceased cfg) cfg df) then
     secho (MsgDeceasedAbsent (col_vital_status cfg)
              (vital_status_value_deceased cfg)) Yellow
   else mret tt).

(** Lines 192-270: the transformation with its console output, and the file
    that is written. The statements of pandas are taken as total functions
    of the table. A vital-status column that bears the name of one of the
    two derived date columns is overwritten before line 236 reads it, and
    pandas may then refuse the assignment of that line; statements on runs
    that return may exclude these two names. *)
Definition run_pipeline (cfg : Config) (df : DataFrame) : M unit :=
  print (PrVitalStatusCounts (column (col_vital_status cfg) df));;
  let df := Stage.add_date_of_diagnosis cfg df in
  let df := Stage.add_date_of_last_contact cfg df in
  print (PrNumberOfSamples (length (rows df)));;
  print PrDroppingRows;;
  let df := Stage.drop_failed_dates df in
  print (PrNumberOfSamples (length (rows df)));;
  print (PrUsingStudyEndDate END_DATE);;
  let diagnosed_prior_to_study_end := Stage.diagnosed_prior_to_study_end df in
  print (PrModifyingVitalStatus END_DATE);;
  let df := Stage.adjust_vital_status cfg df in
  print (PrClipping END_DATE);;
  let df := Stage.clip_last_contact df in
  print (PrKeeping (count_true diagnosed_prior_to_study_end) END_DATE);;
  print (PrOriginalData (length (rows df)));;
  let df := loc_rows diagnosed_prior_to_study_end df in
  (* Survival in days. *)
  print PrCalculatingSurvival;;
  let df := Stage.add_survivalA df in
  (* Censor column is 0=alive, 1=deceased. *)
  print PrCreatingCensor;;
  let df := Stage.add_censor cfg df in
  let cols := Stage.cols cfg in
  print (PrSavingColumns cols);;
  print (PrSamples (length (rows df)));;
  secho (MsgSavingTo (outpath cfg)) Green;;
  to_csv (outpath cfg) cols df.

Section Main.

Context {kwargs : Type} (pd : Readers kwargs).

(** Lines 139-151: the reader that [filetype] names. *)
Definition read_table (cfg : Config) (pandas_reader_arguments : kwargs)
    : M DataFrame :=
  let filetype := lower (filetype cfg) in
  if String.eqb filetype "csv" then
    run_reader filetype (inpath cfg)
      (fun f => read_csv pd f pandas_reader_arguments)
  else if String.eqb filetype "excel" then
    run_reader filetype (inpath cfg)
      (fun f => read_excel pd f pandas_reader_arguments)
  else if String.eqb filetype "sas" then
    run_reader filetype (inpath cfg)
      (fun f => read_sas pd f pandas_reader_arguments)
  else raise NotImplementedError.

Definition main (cfg : Config) : M unit :=
  ex ← path_exists (outpath cfg);
  (if ex : bool then
     secho (MsgOutputPathExists (outpath cfg)) Red;; sys_exit 1
   else mret tt);;
  pandas_reader_arguments ←
    match json_loads pd (pandas_reader_arguments cfg) with
    | Some a => mret a
    | None => raise JSONDecodeError
    end;
  df ← read_table cfg pandas_reader_arguments;
  check_table cfg df;;
  run_pipeline cfg df.

End Main.

(** ** The pipeline, one row at a time *)

Module Row.

Definition dod : string := "date_of_diagnosis_yyyymmdd".
Definition dolc : string := "date_of_last_contact_yyyymmdd".
Definition vsase : string := "vital_status_at_study_end".
Definition clipped : string := "date_of_last_contact_clipped_yyyymmdd".
Definition survivalA : string := "survivalA".
Definition censor : string := "censorA.0yes.1no".

(** Lines 195-217 on one row. *)
Definition dates (cfg : Config) (r : row) : row :=
  let r :=
    <[dod := to_datetime (get_dt_diagnosis r (col_dod_yyyy cfg) (col_dod_mm cfg)
                            (col_dod_dd cfg))]> r in
  <[dolc := to_datetime (get_dt_last_contact r (col_dolc_yyyy cfg)
                           (col_dolc_mm cfg) (col_dolc_dd cfg))]> r.

(** The test of [dropna], line 221. *)
Definition parsed (r : row) : bool :=
  forallb (fun c => negb (isna (getitem r c))) [dod; dolc].

(** The mask of line 229. *)
Definition in_window (r : row) : bool := cell_le (getitem r dod) END_DATE.

(** Lines 232-242 on one row. *)
Definition adjust (cfg : Config) (r : row) : row :=
  let r := <[vsase := getitem r (col_vital_status cfg)]> r in
  let r :=
    if cell_gt (getitem r dolc) END_DATE &&
       cell_eq_str (getitem r (col_vital_status cfg))
         (vital_status_value_deceased cfg)
    then <[vsase := CStr (vital_status_value_alive cfg)]> r else r in
  <[clipped := if cell_gt (getitem r dolc) END_DATE then END_DATE
               else getitem r dolc]> r.

(** Lines 255-264 on one row. *)
Definition finish (cfg : Config) (r : row) : row :=
  let r := <[survivalA := cell_sub (getitem r clipped) (getitem r dod)]> r in
  let r := <[survivalA := dt_days (getitem r survivalA)]> r in
  <[censor := replace (Stage.censor_dict cfg) (getitem r vsase)]> r.

(** What becomes of one row of the input: dropped, or the retained row with
    all its derived columns. *)
Definition process (cfg : Config) (r : row) : option row :=
  let r := dates cfg r in
  if parsed r then
    if in_window r then Some (finish cfg (adjust cfg r)) else None
  else None.

(** The line written for a retained row. *)
Definition line (cfg : Config) (r : row) : list cell :=
  map (getitem r) (Stage.cols cfg).

End Row.

(** * Vocabulary of the statements *)

(** ** Fields that form a calendar date *)

Module Field.

(** A text of exactly four digits, and its value. *)
Definition year_chars (l : list ascii) : option Z :=
  match l with
  | [c1; c2; c3; c4] =>
      if Parse.is_digit c1 && Parse.is_digit c2 && Parse.is_digit c3 &&
         Parse.is_digit c4
      then Some (1000 * Parse.digit_val c1 + 100 * Parse.digit_val c2 +
                 10 * Parse.digit_val c3 + Parse.digit_val c4)
      else None
  | _ => None
  end.

(** A text of one or two digits, and its value. *)
Definition short_chars (l : list ascii) : option Z :=
  match l with
  | [c1] => if Parse.is_digit c1 then Some (Parse.digit_val c1) else None
  | [c1; c2] =>
      if Parse.is_digit c1 && Parse.is_digit c2
      then Some (10 * Parse.digit_val c1 + Parse.digit_val c2)
      else None
  | _ => None
  end.

(** The date that three fields denote: a year of four digits, a month and a
    day of one or two digits each, the day being a day of that month. *)
Definition date_of (y m d : cell) : option (Z * Z * Z) :=
  match year_chars (list_ascii_of_string (str_of_cell y)),
        short_chars (list_ascii_of_string (str_of_cell m)),
        short_chars (list_ascii_of_string (str_of_cell d)) with
  | Some Y, Some M, Some D =>
      if Calendar.valid_ymd Y M D then Some (Y, M, D) else None
  | _, _, _ => None
  end.

End Field.

(** ** Traces and runs *)

(** The world after some more events. *)
Definition log (w : World) (es : list event) : World :=
  {| fs := fs w; trace := trace w ++ es |}.

Definition is_exists_check (e : event) : bool :=
  match e with
  | EvPathExists _ => true
  | _ => false
  end.

Definition no_check (t : list event) : bool :=
  forallb (fun e => negb (is_exists_check e)) t.

(** A computation is [quiet] when it only appends events to the trace and
    none of them is a test for the existence of a path. *)
Definition quiet {A} (m : M A) : Prop :=
  forall w, exists t, trace (m w).2 = trace w ++ t /\ no_check t = true.

(** The test of line 166, and the list of line 167. *)
Definition all_present (cfg : Config) (df : DataFrame) : bool :=
  forallb (fun c => bool_decide (c ∈ columns df)) (expected_cols cfg).

Definition missing_cols (cfg : Config) (df : DataFrame) : list string :=
  select (expected_cols cfg)
    (map negb (map (fun c => bool_decide (c ∈ columns df)) (expected_cols cfg))).

(** The warning of lines 185-190. *)
Definition deceased_warning (cfg : Config) (df : DataFrame) : list event :=
  if occurs (vital_status_value_deceased cfg) cfg df then []
  else [EvSecho (MsgDeceasedAbsent (col_vital_status cfg)
                   (vital_status_value_deceased cfg)) Yellow].

(** The console output of lines 192-269. *)
Definition pipeline_events (cfg : Config) (df : DataFrame) : list event :=
  let df1 := Stage.add_date_of_last_contact cfg (Stage.add_date_of_diagnosis cfg df) in
  let df2 := Stage.drop_failed_dates df1 in
  [ EvPrint (PrVitalStatusCounts (column (col_vital_status cfg) df));
    EvPrint (PrNumberOfSamples (length (rows df1)));
    EvPrint PrDroppingRows;
    EvPrint (PrNumberOfSamples (length (rows df2)));
    EvPrint (PrUsingStudyEndDate END_DATE);
    EvPrint (PrModifyingVitalStatus END_DATE);
    EvPrint (PrClipping END_DATE);
    EvPrint (PrKeeping (count_true (Stage.diagnosed_prior_to_study_end df2)) END_DATE);
    EvPrint (PrOriginalData
               (length (rows (Stage.clip_last_contact
                                (Stage.adjust_vital_status cfg df2)))));
    EvPrint PrCalculatingSurvival;
    EvPrint PrCreatingCensor;
    EvPrint (PrSavingColumns (Stage.cols cfg));
    EvPrint (PrSamples (length (rows (Stage.transform cfg df))));
    EvSecho (MsgSavingTo (outpath cfg)) Green;
    EvToCsv (outpath cfg) ].

(** The input file is there and the reader named by [filetype] turns it into
    the table [df]. *)
Definition reads {kwargs : Type} (pd : Readers kwargs) (cfg : Config)
    (w : World) (df : DataFrame) : Prop :=
  exists a f,
    json_loads pd (pandas_reader_arguments cfg) = Some a /\
    fs w !! inpath cfg = Some f /\
    ((lower (filetype cfg) = "csv" /\ read_csv pd f a = Some df) \/
     (lower (filetype cfg) = "excel" /\ read_excel pd f a = Some df) \/
     (lower (filetype cfg) = "sas" /\ read_sas pd f a = Some df)).

(** The state in which the checks of lines 153-190 start. *)
Definition loaded (cfg : Config) (w : World) : World :=
  log w [EvPathExists (outpath cfg); EvRead (lower (filetype cfg)) (inpath cfg)].

(** ** The study end, and names of columns *)

(** The study end as a day count. *)
Definition study_end_days : Z := Calendar.days_from_civil 2020 12 31.

(** The columns that the pipeline adds to the table. *)
Definition derived_columns : list string :=
  [Row.dod; Row.dolc; Row.vsase; Row.clipped; Row.survivalA; Row.censor].

(** None of the configured column names is the name of a column that the
    pipeline adds. *)
Definition fresh_columns (cfg : Config) : bool :=
  forallb (fun c => bool_decide (c ∉ derived_columns)) (expected_cols cfg).

(** ** A configuration, a cohort and worlds used as examples *)

(** The defaults of the command line. *)
Definition default_cfg : Config :=
  {| inpath := "cohort.xlsx";
     outpath := "survival.csv";
     col_index := "STUDYID";
     col_dod_yyyy := "D_DATE_OF_DIAGNOSIS_YYYY";
     col_dod_mm := "D_DATE_OF_DIAGNOSIS_MM";
     col_dod_dd := "D_DATE_OF_DIAGNOSIS_DD";
     col_dolc_yyyy := "D_DATE_OF_LAST_CONTACT_YYYY";
     col_dolc_mm := "D_DATE_OF_LAST_CONTACT_MM";
     col_dolc_dd := "D_DATE_OF_LAST_CONTACT_DD";
     col_vital_status := "D_VITAL_STATUS";
     vital_status_value_alive := "Alive";
     vital_status_value_deceased := "Dead";
     filetype := "excel";
     pandas_reader_arguments := "{}" |}.

(** A row of a table with the default column names. *)
Definition patient (id : cell) (dy dm dd ly lm ld : cell) (status : cell) : row :=
  <["STUDYID" := id]>
  (<["D_DATE_OF_DIAGNOSIS_YYYY" := dy]>
  (<["D_DATE_OF_DIAGNOSIS_MM" := dm]>
  (<["D_DATE_OF_DIAGNOSIS_DD" := dd]>
  (<["D_DATE_OF_LAST_CONTACT_YYYY" := ly]>
  (<["D_DATE_OF_LAST_CONTACT_MM" := lm]>
  (<["D_DATE_OF_LAST_CONTACT_DD" := ld]>
  (<["D_VITAL_STATUS" := status]> ∅))))))).

Definition table (l : list row) : DataFrame :=
  {| columns := expected_cols default_cfg; rows := l |}.

(** Scenario A: diagnosed 2015-01-01, last contact 2019-06-15, alive. *)
Definition patient_A : row :=
  patient (CStr "A") (CInt 2015) (CInt 1) (CInt 1) (CInt 2019) (CInt 6) (CInt 15)
    (CStr "Alive").

(** Scenario B: diagnosed 2015-01-01, died 2021-03-01. *)
Definition patient_B : row :=
  patient (CStr "B") (CStr "2015") (CStr "01") (CStr "01")
    (CStr "2021") (CStr "03") (CStr "01") (CStr "Dead").

(** Scenario C: diagnosed after the study end. *)
Definition patient_C : row :=
  patient (CStr "C") (CInt 2021) (CInt 1) (CInt 5) (CInt 2021) (CInt 6) (CInt 1)
    (CStr "Alive").

(** Scenario D: the month of diagnosis is 13. *)
Definition patient_D : row :=
  patient (CStr "D") (CInt 2015) (CInt 13) (CInt 1) (CInt 2019) (CInt 6) (CInt 15)
    (CStr "Alive").

(** A vital status that is neither of the two values. *)
Definition patient_U : row :=
  patient (CStr "U") (CInt 2016) (CInt 2) (CInt 29) (CInt 2018) (CInt 3) (CInt 1)
    (CStr "Unknown").

(** Last contact before the diagnosis. *)
Definition patient_N : row :=
  patient (CStr "N") (CInt 2019) (CInt 6) (CInt 15) (CInt 2015) (CInt 1) (CInt 1)
    (CStr "Dead").

Definition cohort : DataFrame :=
  table [patient_A; patient_B; patient_C; patient_D; patient_U; patient_N].

(** Readers that deliver the table [df] from any file. *)
Definition readers_of (df : DataFrame) : Readers unit :=
  {| json_loads := fun s => if String.eqb s "{}" then Some tt else None;
     read_csv := fun _ _ => Some df;
     read_excel := fun _ _ => Some df;
     read_sas := fun _ _ => Some df |}.

Definition world_of (files : list (string * file)) : World :=
  {| fs := list_to_map files; trace := [] |}.

(** A table without the alive value, and one without the deceased value. *)
Definition cohort_no_alive : DataFrame := table [patient_U; patient_N].
Definition cohort_no_deceased : DataFrame := table [patient_A; patient_U].

Definition input_only : World := world_of [("cohort.xlsx", Raw "")].
Definition output_there : World :=
  world_of [("cohort.xlsx", Raw ""); ("survival.csv", Raw "old")].

(** ** Further vocabulary: what a run may do, and more examples *)

(** A computation that leaves the file system as it is and that exits, when
    it exits, with code 1. *)
Definition harmless {A} (m : M A) : Prop :=
  forall w, fs (m w).2 = fs w /\ forall c, (m w).1 = SysExit c -> c = 1.

(** A computation that touches no path but [out], changes the file system
    only when it returns, and exits, when it exits, with code 1. *)
Definition framed {A} (out : string) (m : M A) : Prop :=
  forall w,
    (forall p, p ≠ out -> fs (m w).2 !! p = fs w !! p) /\
    ((forall a, (m w).1 ≠ Ok a) -> fs (m w).2 = fs w) /\
    (forall c, (m w).1 = SysExit c -> c = 1).

(** The integers [lo], [lo + 1], ..., [lo + n - 1]. *)
Definition Zrange (lo : Z) (n : nat) : list Z :=
  map (fun i => lo + Z.of_nat i) (seq 0 n).

(** The text of the integer [z] is a year of four digits that reads [z]. *)
Definition year_prints (z : Z) : bool :=
  bool_decide (Field.year_chars (list_ascii_of_string (str_of_Z z)) = Some z).

(** The text of the integer [z] is a month or day that reads [z]. *)
Definition short_prints (z : Z) : bool :=
  bool_decide (Field.short_chars (list_ascii_of_string (str_of_Z z)) = Some z).

Definition with_filetype (ft : string) (cfg : Config) : Config :=
  {| inpath := inpath cfg;
     outpath := outpath cfg;
     col_index := col_index cfg;
     col_dod_yyyy := col_dod_yyyy cfg;
     col_dod_mm := col_dod_mm cfg;
     col_dod_dd := col_dod_dd cfg;
     col_dolc_yyyy := col_dolc_yyyy cfg;
     col_dolc_mm := col_dolc_mm cfg;
     col_dolc_dd := col_dolc_dd cfg;
     col_vital_status := col_vital_status cfg;
     vital_status_value_alive := vital_status_value_alive cfg;
     vital_status_value_deceased := vital_status_value_deceased cfg;
     filetype := ft;
     pandas_reader_arguments := pandas_reader_arguments cfg |}.

Definition with_reader_arguments (a : string) (cfg : Config) : Config :=
  {| inpath := inpath cfg;
     outpath := outpath cfg;
     col_index := col_index cfg;
     col_dod_yyyy := col_dod_yyyy cfg;
     col_dod_mm := col_dod_mm cfg;
     col_dod_dd := col_dod_dd cfg;
     col_dolc_yyyy := col_dolc_yyyy cfg;
     col_dolc_mm := col_dolc_mm cfg;
     col_dolc_dd := col_dolc_dd cfg;
     col_vital_status := col_vital_status cfg;
     vital_status_value_alive := vital_status_value_alive cfg;
     vital_status_value_deceased := vital_status_value_deceased cfg;
     filetype := filetype cfg;
     pandas_reader_arguments := a |}.

(** A table that lacks six of the eight columns, and a table without rows. *)
Definition cohort_two_columns : DataFrame :=
  {| columns := ["D_VITAL_STATUS"; "STUDYID"]; rows := [] |}.
Definition cohort_empty : DataFrame := table [].

(** A cohort in which every vital status is one of the two values. *)
Definition cohort_clean : DataFrame := table [patient_A; patient_B; patient_N].

(** ** Invalid fields, announced counts and the command line *)





(** A missing vital status, and the integer 1 as vital status. *)
Definition patient_M : row :=
  patient (CStr "M") (CInt 2016) (CInt 1) (CInt 1) (CInt 2017) (CInt 1) (CInt 1)
    CNaN.
Definition patient_I : row :=
  patient (CStr "I") (CInt 2016) (CInt 1) (CInt 1) (CInt 2017) (CInt 1) (CInt 1)
    (CInt 1).
Definition cohort_missing : DataFrame := table [patient_A; patient_M].
Definition cohort_one : DataFrame := table [patient_A; patient_I].

(** The events that announce a number of rows. *)
Definition count_events (t : list event) : list printed :=
  omap (fun e =>
          match e with
          | EvPrint (PrNumberOfSamples n) => Some (PrNumberOfSamples n)
          | EvPrint (PrKeeping n d) => Some (PrKeeping n d)
          | EvPrint (PrOriginalData n) => Some (PrOriginalData n)
          | EvPrint (PrSamples n) => Some (PrSamples n)
          | _ => None
          end) t.

(** The values that [click.Choice] admits for the file type. *)
Definition filetype_choices : list string := ["csv"; "excel"; "sas"].

(** The command that the decorators of lines 30-114 make of [main]: the
    input path must exist and the file type must be one of the choices, or
    the command ends with exit code 2 before the body starts. *)
Definition command {kwargs : Type} (pd : Readers kwargs) (cfg : Config) : M unit :=
  fun w =>
    if bool_decide (is_Some (fs w !! inpath cfg)) &&
       bool_decide (filetype cfg ∈ filetype_choices)
    then main pd cfg w
    else (SysExit 2, w).

(** * Properties *)

(** ** Examples of the date parser *)

Example to_datetime_end : to_datetime "2020-12-31" = CTimestamp 18627.
Proof. reflexivity. Qed.

Example to_datetime_short : to_datetime "2015-1-1" = CTimestamp 16436.
Proof. reflexivity. Qed.

Example to_datetime_month13 : to_datetime "2015-13-01" = CNaT.
Proof. reflexivity. Qed.

Example to_datetime_feb29 :
  to_datetime "2019-02-29" = CNaT /\ to_datetime "2020-02-29" = CTimestamp 18321.
Proof. split; reflexivity. Qed.

Example str_of_timestamp_ex : str_of_timestamp 18627 = "2020-12-31 00:00:00".
Proof. reflexivity. Qed.

(** ** The day count follows the calendar *)

(** Day 0 is 1970-01-01, and the count grows by one from each day to the
    next: within a month, from the last day of a month to the first of the
    next, and from 31 December to 1 January. *)

Lemma epoch_day : Calendar.days_from_civil 1970 1 1 = 0.
Proof. reflexivity. Qed.

Lemma next_day_in_month (y m d : Z) :
  Calendar.days_from_civil y m (d + 1) = Calendar.days_from_civil y m d + 1.
Proof. unfold Calendar.days_from_civil, Calendar.ymd2ord. lia. Qed.

Lemma first_of_next_month (y m : Z) :
  1 <= m < 12 ->
  Calendar.days_from_civil y (m + 1) 1 =
  Calendar.days_from_civil y m (Calendar.days_in_month y m) + 1.
Proof.
  intros Hm.
  assert (Hcases : m = 1 \/ m = 2 \/ m = 3 \/ m = 4 \/ m = 5 \/ m = 6 \/
                   m = 7 \/ m = 8 \/ m = 9 \/ m = 10 \/ m = 11) by lia.
  unfold Calendar.days_from_civil, Calendar.ymd2ord, Calendar.days_before_month,
    Calendar.days_in_month.
  repeat (destruct Hcases as [-> | Hcases]); try subst m; simpl;
    destruct (Calendar.is_leap y); lia.
Qed.

Lemma first_of_next_year (y : Z) :
  Calendar.days_from_civil (y + 1) 1 1 = Calendar.days_from_civil y 12 31 + 1.
Proof.
  unfold Calendar.days_from_civil, Calendar.ymd2ord, Calendar.days_before_month,
    Calendar.days_before_year, Calendar.is_leap.
  change (2 <? 1) with false. change (2 <? 12) with true. cbn [andb].
  replace (y + 1 - 1) with y by lia.
  destruct (y mod 4 =? 0) eqn:H4; destruct (y mod 100 =? 0) eqn:H100;
    destruct (y mod 400 =? 0) eqn:H400; cbn [andb orb negb];
    rewrite ?Z.eqb_eq, ?Z.eqb_neq in *;
    Z.div_mod_to_equations; lia.
Qed.

(** ** The vectorised statements act row by row *)

Section Vectorised.

Context {A B C D : Type}.

Lemma zip_with_map_same (f : A -> B -> C) (g : A -> B) (l : list A) :
  zip_with f l (map g l) = map (fun x => f x (g x)) l.
Proof. induction l as [|x l IH]; simpl; [done | by rewrite IH]. Qed.

Lemma zip_with_map_map (f : B -> C -> D) (g : A -> B) (h : A -> C) (l : list A) :
  zip_with f (map g l) (map h l) = map (fun x => f (g x) (h x)) l.
Proof. induction l as [|x l IH]; simpl; [done | by rewrite IH]. Qed.

Lemma select_map_map (h : A -> B) (p : A -> bool) (l : list A) :
  select (map h l) (map p l) = map h (List.filter p l).
Proof.
  induction l as [|x l IH]; simpl; [done |].
  destruct (p x); simpl; by rewrite IH.
Qed.

Lemma omap_filter_map (f : A -> B) (p q : B -> bool) (g : B -> C) (l : list A) :
  map g (List.filter q (List.filter p (map f l))) =
  omap (fun x => let y := f x in
                 if p y then if q y then Some (g y) else None else None) l.
Proof.
  induction l as [|x l IH]; simpl; [done |].
  destruct (p (f x)); simpl; [destruct (q (f x)); simpl |]; by rewrite IH.
Qed.

End Vectorised.

Ltac rowwise :=
  repeat first
    [ rewrite zip_with_map_same | rewrite zip_with_map_map | rewrite map_map ].

Lemma rows_add_dates (cfg : Config) (df : DataFrame) :
  rows (Stage.add_date_of_last_contact cfg (Stage.add_date_of_diagnosis cfg df)) =
  map (Row.dates cfg) (rows df).
Proof.
  unfold Stage.add_date_of_last_contact, Stage.add_date_of_diagnosis,
    setitem, apply_rows; simpl.
  rowwise. reflexivity.
Qed.

Lemma rows_adjust_clip (cfg : Config) (df : DataFrame) :
  rows (Stage.clip_last_contact (Stage.adjust_vital_status cfg df)) =
  map (Row.adjust cfg) (rows df).
Proof.
  unfold Stage.clip_last_contact, Stage.adjust_vital_status, setitem,
    loc_setitem, clip_upper, column; simpl.
  rowwise. reflexivity.
Qed.

Lemma rows_finish (cfg : Config) (df : DataFrame) :
  rows (Stage.add_censor cfg (Stage.add_survivalA df)) =
  map (Row.finish cfg) (rows df).
Proof.
  unfold Stage.add_censor, Stage.add_survivalA, setitem, column; simpl.
  rowwise. reflexivity.
Qed.

Lemma rows_drop_failed_dates (df : DataFrame) :
  rows (Stage.drop_failed_dates df) = List.filter Row.parsed (rows df).
Proof. reflexivity. Qed.

Lemma diagnosed_prior_rowwise (df : DataFrame) :
  Stage.diagnosed_prior_to_study_end df = map Row.in_window (rows df).
Proof. unfold Stage.diagnosed_prior_to_study_end, column. by rewrite map_map. Qed.

Lemma rows_loc_rows (mask : list bool) (df : DataFrame) :
  rows (loc_rows mask df) = select (rows df) mask.
Proof. reflexivity. Qed.

(** The table that is written holds, in the order of the input, the image
    of every input row that [Row.process] retains. *)
Lemma rows_transform (cfg : Config) (df : DataFrame) :
  rows (Stage.transform cfg df) = omap (Row.process cfg) (rows df).
Proof.
  unfold Stage.transform.
  rewrite rows_finish, rows_loc_rows, rows_adjust_clip, diagnosed_prior_rowwise.
  rewrite rows_drop_failed_dates, rows_add_dates.
  rewrite select_map_map, map_map.
  apply (omap_filter_map (Row.dates cfg) Row.parsed Row.in_window
           (fun r => Row.finish cfg (Row.adjust cfg r))).
Qed.

(** ** Runs of [main] *)

Lemma log_nil (w : World) : log w [] = w.
Proof. destruct w; unfold log; simpl. by rewrite app_nil_r. Qed.

Lemma log_log (w : World) (es es' : list event) :
  log (log w es) es' = log w (es ++ es').
Proof. unfold log; simpl. by rewrite app_assoc. Qed.

Section Monad.

Context {A B : Type}.

Lemma bind_ok (m : M A) (k : A -> M B) (w w' : World) (a : A) :
  m w = (Ok a, w') -> (m ≫= k) w = k a w'.
Proof. intros H. unfold mbind, M_bind. by rewrite H. Qed.

Lemma bind_exit (m : M A) (k : A -> M B) (w w' : World) (c : Z) :
  m w = (SysExit c, w') -> (m ≫= k) w = (SysExit c, w').
Proof. intros H. unfold mbind, M_bind. by rewrite H. Qed.

Lemma bind_raised (m : M A) (k : A -> M B) (w w' : World) (e : exn) :
  m w = (Raised e, w') -> (m ≫= k) w = (Raised e, w').
Proof. intros H. unfold mbind, M_bind. by rewrite H. Qed.

End Monad.

Lemma emit_run (e : event) (w : World) : emit e w = (Ok tt, log w [e]).
Proof. reflexivity. Qed.

Section Quiet.

Context {A B : Type}.

Lemma quiet_ret (a : A) : quiet (mret a : M A).
Proof. intros w. exists []. simpl. by rewrite app_nil_r. Qed.

Lemma quiet_sys_exit (c : Z) : quiet (sys_exit c : M A).
Proof. intros w. exists []. simpl. by rewrite app_nil_r. Qed.

Lemma quiet_raise (e : exn) : quiet (raise e : M A).
Proof. intros w. exists []. simpl. by rewrite app_nil_r. Qed.

Lemma quiet_bind (m : M A) (k : A -> M B) :
  quiet m -> (forall a, quiet (k a)) -> quiet (m ≫= k).
Proof.
  intros Hm Hk w. destruct (Hm w) as (t & Ht & Hq).
  unfold mbind, M_bind. destruct (m w) as [[a | c | e] w1]; simpl in Ht.
  - destruct (Hk a w1) as (t' & Ht' & Hq'). exists (t ++ t').
    rewrite Ht', Ht, app_assoc. split; [done |].
    unfold no_check in *. rewrite forallb_app. by rewrite Hq, Hq'.
  - by exists t.
  - by exists t.
Qed.

Lemma quiet_if (b : bool) (m1 m2 : M A) : quiet m1 -> quiet m2 ->
  quiet (if b then m1 else m2).
Proof. by destruct b. Qed.

End Quiet.

Lemma quiet_emit (e : event) : is_exists_check e = false -> quiet (emit e).
Proof. intros He w. exists [e]. simpl. unfold no_check. simpl. by rewrite He. Qed.

Lemma quiet_secho (m : message) (fg : color) : quiet (secho m fg).
Proof. by apply quiet_emit. Qed.

Lemma quiet_print (p : printed) : quiet (print p).
Proof. by apply quiet_emit. Qed.

Lemma quiet_run_reader (ft path : string) (rd : file -> option DataFrame) :
  quiet (run_reader ft path rd).
Proof.
  intros w. exists [EvRead ft path]. unfold run_reader.
  destruct (fs w !! path) as [f|]; [destruct (rd f) |]; done.
Qed.

Lemma quiet_to_csv (path : string) (cols : list string) (df : DataFrame) :
  quiet (to_csv path cols df).
Proof. intros w. by exists [EvToCsv path]. Qed.

Ltac quiet_tac :=
  repeat lazymatch goal with
    | |- forall _, quiet _ => intro
    | |- quiet (let _ := _ in _) => cbv zeta
    | |- quiet (_ ≫= _) => apply quiet_bind
    | |- quiet (if _ then _ else _) => apply quiet_if
    | |- quiet (secho _ _) => apply quiet_secho
    | |- quiet (print _) => apply quiet_print
    | |- quiet (mret _) => apply quiet_ret
    | |- quiet (sys_exit _) => apply quiet_sys_exit
    | |- quiet (raise _) => apply quiet_raise
    | |- quiet (run_reader _ _ _) => apply quiet_run_reader
    | |- quiet (to_csv _ _ _) => apply quiet_to_csv
    end.

Lemma quiet_check_table (cfg : Config) (df : DataFrame) : quiet (check_table cfg df).
Proof. unfold check_table. quiet_tac. Qed.

Lemma quiet_run_pipeline (cfg : Config) (df : DataFrame) :
  quiet (run_pipeline cfg df).
Proof. unfold run_pipeline. quiet_tac. Qed.

(** ** What the checks and the pipeline do *)

Lemma forallb_id_map {A} (f : A -> bool) (l : list A) :
  forallb (fun b : bool => b) (map f l) = forallb f l.
Proof. induction l as [|x l IH]; simpl; [done | by rewrite IH]. Qed.

Lemma check_table_missing (cfg : Config) (df : DataFrame) (w : World) :
  all_present cfg df = false ->
  check_table cfg df w =
  (SysExit 1, log w [EvSecho (MsgMissingColumns (missing_cols cfg df)) Red]).
Proof.
  intros H. unfold check_table. rewrite forallb_id_map.
  fold (all_present cfg df). rewrite H. reflexivity.
Qed.

Lemma check_table_alive_absent (cfg : Config) (df : DataFrame) (w : World) :
  all_present cfg df = true ->
  occurs (vital_status_value_alive cfg) cfg df = false ->
  check_table cfg df w =
  (SysExit 1,
   log w [EvSecho (MsgAliveAbsent (col_vital_status cfg)
                     (vital_status_value_alive cfg)) Red]).
Proof.
  intros H Ha. unfold check_table. rewrite forallb_id_map.
  fold (all_present cfg df). rewrite H, Ha. reflexivity.
Qed.

Lemma check_table_ok (cfg : Config) (df : DataFrame) (w : World) :
  all_present cfg df = true ->
  occurs (vital_status_value_alive cfg) cfg df = true ->
  check_table cfg df w = (Ok tt, log w (deceased_warning cfg df)).
Proof.
  intros H Ha. unfold check_table, deceased_warning. rewrite forallb_id_map.
  fold (all_present cfg df). rewrite H, Ha.
  destruct (occurs (vital_status_value_deceased cfg) cfg df); simpl.
  - unfold mbind, M_bind, mret, M_ret. simpl. by rewrite log_nil.
  - reflexivity.
Qed.

(** The pipeline has no failing statement: it always returns, with the
    projection of the transformed table written to the output path. *)
Lemma run_pipeline_run (cfg : Config) (df : DataFrame) (w : World) :
  run_pipeline cfg df w =
  (Ok tt,
   {| fs := <[outpath cfg :=
                Csv (Stage.cols cfg)
                  (project (Stage.cols cfg) (Stage.transform cfg df))]> (fs w);
      trace := trace w ++ pipeline_events cfg df |}).
Proof.
  unfold run_pipeline, pipeline_events, mbind, M_bind, print, secho, emit, to_csv.
  cbn [fs trace]. rewrite <- !app_assoc. reflexivity.
Qed.

Section Runs.

Context {kwargs : Type} (pd : Readers kwargs).

Lemma quiet_read_table (cfg : Config) (a : kwargs) : quiet (read_table pd cfg a).
Proof. unfold read_table. quiet_tac. Qed.

Lemma path_exists_run (p : string) (w : World) :
  path_exists p w = (Ok (bool_decide (is_Some (fs w !! p))), log w [EvPathExists p]).
Proof. reflexivity. Qed.

Lemma main_outpath_exists (cfg : Config) (w : World) :
  is_Some (fs w !! outpath cfg) ->
  main pd cfg w =
  (SysExit 1,
   log w [EvPathExists (outpath cfg);
          EvSecho (MsgOutputPathExists (outpath cfg)) Red]).
Proof.
  intros Hex. unfold main.
  rewrite (bind_ok _ _ _ _ _ (path_exists_run _ _)).
  rewrite bool_decide_eq_true_2 by done.
  apply bind_exit. unfold secho, sys_exit.
  rewrite (bind_ok _ _ _ _ _ (emit_run _ _)). by rewrite log_log.
Qed.

(** Every run begins with the test of the output path and never tests a
    path again. *)
Lemma main_checks_once (cfg : Config) (w : World) :
  exists t,
    trace (main pd cfg w).2 = trace w ++ EvPathExists (outpath cfg) :: t /\
    no_check t = true.
Proof.
  unfold main. rewrite (bind_ok _ _ _ _ _ (path_exists_run _ _)).
  match goal with
  | |- context [trace (?m _).2] =>
      assert (Hq : quiet m)
  end.
  { quiet_tac.
    - destruct (json_loads pd (pandas_reader_arguments cfg)); quiet_tac.
    - apply quiet_read_table.
    - apply quiet_check_table.
    - apply quiet_run_pipeline. }
  destruct (Hq (log w [EvPathExists (outpath cfg)])) as (t & Ht & Hn).
  exists t. split; [| done]. rewrite Ht. simpl. by rewrite <- app_assoc.
Qed.

Lemma main_loaded (cfg : Config) (w : World) (df : DataFrame) :
  fs w !! outpath cfg = None ->
  reads pd cfg w df ->
  main pd cfg w = (check_table cfg df ≫= fun _ => run_pipeline cfg df) (loaded cfg w).
Proof.
  intros Hout (a & f & Hj & Hf & Hrd).
  unfold main, loaded, log, path_exists, read_table, run_reader.
  unfold mbind at 1 2 3, M_bind at 1 2 3. cbn [fs trace].
  rewrite bool_decide_eq_false_2 by (rewrite Hout; by intros [? ?]).
  cbn [mret M_ret]. rewrite Hj.
  destruct Hrd as [[Hft Hr] | [[Hft Hr] | [Hft Hr]]]; rewrite !Hft;
    cbn -[check_table run_pipeline]; apply (bind_ok _
             (fun df0 => check_table cfg df0 ≫= fun _ => run_pipeline cfg df0)
             _ _ df);
    cbn [fs trace];
    rewrite Hf, Hr, <- !app_assoc; reflexivity.
Qed.

Lemma main_missing_columns (cfg : Config) (w : World) (df : DataFrame) :
  fs w !! outpath cfg = None ->
  reads pd cfg w df ->
  all_present cfg df = false ->
  main pd cfg w =
  (SysExit 1,
   log (loaded cfg w) [EvSecho (MsgMissingColumns (missing_cols cfg df)) Red]).
Proof.
  intros Hout Hreads Hcols. rewrite (main_loaded _ _ _ Hout Hreads).
  apply bind_exit. by apply check_table_missing.
Qed.

Lemma main_alive_absent (cfg : Config) (w : World) (df : DataFrame) :
  fs w !! outpath cfg = None ->
  reads pd cfg w df ->
  all_present cfg df = true ->
  occurs (vital_status_value_alive cfg) cfg df = false ->
  main pd cfg w =
  (SysExit 1,
   log (loaded cfg w)
     [EvSecho (MsgAliveAbsent (col_vital_status cfg)
                 (vital_status_value_alive cfg)) Red]).
Proof.
  intros Hout Hreads Hcols Halive. rewrite (main_loaded _ _ _ Hout Hreads).
  apply bind_exit. by apply check_table_alive_absent.
Qed.

Lemma main_completes (cfg : Config) (w : World) (df : DataFrame) :
  fs w !! outpath cfg = None ->
  reads pd cfg w df ->
  all_present cfg df = true ->
  occurs (vital_status_value_alive cfg) cfg df = true ->
  main pd cfg w =
  (Ok tt,
   {| fs := <[outpath cfg :=
                Csv (Stage.cols cfg)
                  (project (Stage.cols cfg) (Stage.transform cfg df))]> (fs w);
      trace := trace (loaded cfg w) ++
               deceased_warning cfg df ++ pipeline_events cfg df |}).
Proof.
  intros Hout Hreads Hcols Halive. rewrite (main_loaded _ _ _ Hout Hreads).
  rewrite (bind_ok _ _ _ _ _ (check_table_ok _ _ _ Hcols Halive)).
  rewrite run_pipeline_run. unfold log; simpl. by rewrite <- !app_assoc.
Qed.

End Runs.

(** ** Columns of a processed row *)

Lemma getitem_insert_eq (r : row) (k : string) (v : cell) :
  getitem (<[k := v]> r) k = v.
Proof. unfold getitem. by rewrite lookup_insert_eq. Qed.

Lemma getitem_insert_ne (r : row) (k k' : string) (v : cell) :
  k ≠ k' -> getitem (<[k := v]> r) k' = getitem r k'.
Proof. intros H. unfold getitem. by rewrite lookup_insert_ne. Qed.

Ltac names_ne :=
  unfold Row.dod, Row.dolc, Row.vsase, Row.clipped, Row.survivalA, Row.censor;
  first [ discriminate | congruence | done ].

Ltac getitems :=
  repeat first
    [ rewrite getitem_insert_eq
    | rewrite getitem_insert_ne by names_ne ].

Lemma END_DATE_eq : END_DATE = CTimestamp study_end_days.
Proof. reflexivity. Qed.

Lemma to_datetime_cases (s : string) :
  to_datetime s = CNaT \/ exists t, to_datetime s = CTimestamp t.
Proof.
  unfold to_datetime. destruct (Parse.parse_ymd s) as [[[y m] d]|]; [| by left].
  destruct (Calendar.valid_ymd y m d); [| by left].
  destruct (Parse.in_bounds _); [right; eauto | by left].
Qed.

Section Columns.

Variable cfg : Config.

Lemma dates_dod (r : row) :
  getitem (Row.dates cfg r) Row.dod =
  to_datetime (get_dt_diagnosis r (col_dod_yyyy cfg) (col_dod_mm cfg) (col_dod_dd cfg)).
Proof. unfold Row.dates. by getitems. Qed.

Lemma dates_dolc (r : row) :
  getitem (Row.dates cfg r) Row.dolc =
  to_datetime
    (get_dt_last_contact
       (<[Row.dod := to_datetime (get_dt_diagnosis r (col_dod_yyyy cfg)
                                    (col_dod_mm cfg) (col_dod_dd cfg))]> r)
       (col_dolc_yyyy cfg) (col_dolc_mm cfg) (col_dolc_dd cfg)).
Proof. unfold Row.dates. by getitems. Qed.

Lemma dates_other (r : row) (c : string) :
  c ≠ Row.dod -> c ≠ Row.dolc -> getitem (Row.dates cfg r) c = getitem r c.
Proof. intros H1 H2. unfold Row.dates. by getitems. Qed.

(** When none of the three last-contact columns is the derived diagnosis
    column, the last-contact date is reconstructed from the input row. *)
Lemma dates_dolc_input (r : row) :
  col_dolc_yyyy cfg ≠ Row.dod -> col_dolc_mm cfg ≠ Row.dod ->
  col_dolc_dd cfg ≠ Row.dod ->
  getitem (Row.dates cfg r) Row.dolc =
  to_datetime (get_dt_last_contact r (col_dolc_yyyy cfg) (col_dolc_mm cfg)
                 (col_dolc_dd cfg)).
Proof.
  intros Hy Hm Hd. rewrite dates_dolc. unfold get_dt_last_contact.
  by rewrite !getitem_insert_ne by done.
Qed.

Lemma adjust_vsase (r : row) :
  getitem (Row.adjust cfg r) Row.vsase =
  if cell_gt (getitem r Row.dolc) END_DATE &&
     cell_eq_str (getitem r (col_vital_status cfg)) (vital_status_value_deceased cfg)
  then CStr (vital_status_value_alive cfg)
  else getitem r (col_vital_status cfg).
Proof.
  unfold Row.adjust. getitems.
  assert (Hvs : getitem (<[Row.vsase := getitem r (col_vital_status cfg)]> r)
                  (col_vital_status cfg) = getitem r (col_vital_status cfg)).
  { destruct (decide (Row.vsase = col_vital_status cfg)) as [<- | Hne].
    - apply getitem_insert_eq.
    - by apply getitem_insert_ne. }
  rewrite Hvs. destruct (_ && _); by getitems.
Qed.

Lemma adjust_clipped (r : row) :
  getitem (Row.adjust cfg r) Row.clipped =
  if cell_gt (getitem r Row.dolc) END_DATE then END_DATE else getitem r Row.dolc.
Proof.
  unfold Row.adjust. getitems.
  destruct (_ && _); by getitems.
Qed.

Lemma adjust_other (r : row) (c : string) :
  c ≠ Row.vsase -> c ≠ Row.clipped -> getitem (Row.adjust cfg r) c = getitem r c.
Proof.
  intros H1 H2. unfold Row.adjust. getitems.
  destruct (_ && _); by getitems.
Qed.

Lemma finish_survivalA (r : row) :
  getitem (Row.finish cfg r) Row.survivalA =
  dt_days (cell_sub (getitem r Row.clipped) (getitem r Row.dod)).
Proof. unfold Row.finish. by getitems. Qed.

Lemma finish_censor (r : row) :
  getitem (Row.finish cfg r) Row.censor =
  replace (Stage.censor_dict cfg) (getitem r Row.vsase).
Proof. unfold Row.finish. by getitems. Qed.

Lemma finish_other (r : row) (c : string) :
  c ≠ Row.survivalA -> c ≠ Row.censor -> getitem (Row.finish cfg r) c = getitem r c.
Proof. intros H1 H2. unfold Row.finish. by getitems. Qed.

End Columns.

(** ** Retained rows *)

Lemma elem_of_transform (cfg : Config) (df : DataFrame) (r' : row) :
  r' ∈ rows (Stage.transform cfg df) <->
  exists r, r ∈ rows df /\ Row.process cfg r = Some r'.
Proof. rewrite rows_transform. apply list_elem_of_omap. Qed.

Lemma parsed_timestamps (cfg : Config) (r : row) :
  Row.parsed (Row.dates cfg r) = true ->
  exists dd lc,
    getitem (Row.dates cfg r) Row.dod = CTimestamp dd /\
    getitem (Row.dates cfg r) Row.dolc = CTimestamp lc.
Proof.
  unfold Row.parsed. simpl. rewrite dates_dod, dates_dolc.
  destruct (to_datetime_cases
              (get_dt_diagnosis r (col_dod_yyyy cfg) (col_dod_mm cfg)
                 (col_dod_dd cfg))) as [-> | [dd ->]]; [done |].
  match goal with
  | |- context [isna (to_datetime ?s)] =>
      destruct (to_datetime_cases s) as [-> | [lc ->]]; [done |]
  end.
  intros _. by exists dd, lc.
Qed.

(** A row is retained exactly when both dates were parsed and the diagnosis
    is not after the study end; the retained row is then the input row with
    the derived columns of [Row.adjust] and [Row.finish]. *)
Lemma process_Some (cfg : Config) (r r' : row) :
  Row.process cfg r = Some r' <->
  exists dd lc,
    getitem (Row.dates cfg r) Row.dod = CTimestamp dd /\
    getitem (Row.dates cfg r) Row.dolc = CTimestamp lc /\
    dd <= study_end_days /\
    r' = Row.finish cfg (Row.adjust cfg (Row.dates cfg r)).
Proof.
  unfold Row.process. split.
  - destruct (Row.parsed (Row.dates cfg r)) eqn:Hp; [| done].
    destruct (parsed_timestamps _ _ Hp) as (dd & lc & Hd & Hl).
    unfold Row.in_window. rewrite Hd, END_DATE_eq. simpl.
    destruct (dd <=? study_end_days) eqn:Hle; [| done].
    intros [= <-]. exists dd, lc. repeat split; try done. lia.
  - intros (dd & lc & Hd & Hl & Hle & ->).
    unfold Row.parsed, Row.in_window. simpl. rewrite Hd, Hl, END_DATE_eq. simpl.
    destruct (dd <=? study_end_days) eqn:Hle'; [done | lia].
Qed.

Section Retained.

Variables (cfg : Config) (r : row) (dd lc : Z).

Hypothesis Hdod : getitem (Row.dates cfg r) Row.dod = CTimestamp dd.
Hypothesis Hdolc : getitem (Row.dates cfg r) Row.dolc = CTimestamp lc.

Let r' : row := Row.finish cfg (Row.adjust cfg (Row.dates cfg r)).

Lemma retained_dod : getitem r' Row.dod = CTimestamp dd.
Proof.
  unfold r'. rewrite finish_other by names_ne.
  rewrite adjust_other by names_ne. exact Hdod.
Qed.

Lemma retained_dolc : getitem r' Row.dolc = CTimestamp lc.
Proof.
  unfold r'. rewrite finish_other by names_ne.
  rewrite adjust_other by names_ne. exact Hdolc.
Qed.

Lemma retained_vsase :
  getitem r' Row.vsase =
  if (study_end_days <? lc) &&
     cell_eq_str (getitem (Row.dates cfg r) (col_vital_status cfg))
       (vital_status_value_deceased cfg)
  then CStr (vital_status_value_alive cfg)
  else getitem (Row.dates cfg r) (col_vital_status cfg).
Proof.
  unfold r'. rewrite finish_other by names_ne.
  rewrite adjust_vsase, Hdolc, END_DATE_eq. reflexivity.
Qed.

Lemma retained_clipped :
  getitem r' Row.clipped = CTimestamp (Z.min lc study_end_days).
Proof.
  unfold r'. rewrite finish_other by names_ne.
  rewrite adjust_clipped, Hdolc, END_DATE_eq. simpl.
  destruct (study_end_days <? lc) eqn:H; f_equal; lia.
Qed.

Lemma retained_survivalA :
  getitem r' Row.survivalA = CInt (Z.min lc study_end_days - dd).
Proof.
  unfold r'. rewrite finish_survivalA.
  rewrite (adjust_other _ _ Row.dod) by names_ne.
  fold r'. rewrite Hdod.
  pose proof retained_clipped as Hc. unfold r' in Hc.
  rewrite finish_other in Hc by names_ne. by rewrite Hc.
Qed.

Lemma retained_censor :
  getitem r' Row.censor = replace (Stage.censor_dict cfg) (getitem r' Row.vsase).
Proof.
  unfold r'. rewrite finish_censor. by rewrite (finish_other _ _ Row.vsase) by names_ne.
Qed.

Lemma retained_other (c : string) :
  c ≠ Row.dod -> c ≠ Row.dolc -> c ≠ Row.vsase -> c ≠ Row.clipped ->
  c ≠ Row.survivalA -> c ≠ Row.censor ->
  getitem r' c = getitem r c.
Proof.
  intros. unfold r'.
  rewrite finish_other, adjust_other, dates_other; done.
Qed.

End Retained.

(** ** The example cohort *)

Example cohort_written :
  project (Stage.cols default_cfg) (Stage.transform default_cfg cohort) =
  [ [CStr "A"; CInt 0; CInt 1626];
    [CStr "B"; CInt 0; CInt 2191];
    [CStr "U"; CStr "Unknown"; CInt 731];
    [CStr "N"; CInt 1; CInt (-1626)] ].
Proof. vm_compute. reflexivity. Qed.

(** ** Names of columns *)

Lemma fresh_columns_ne (cfg : Config) (c d : string) :
  fresh_columns cfg = true ->
  c ∈ expected_cols cfg -> d ∈ derived_columns -> c ≠ d.
Proof.
  unfold fresh_columns. rewrite forallb_forall. intros H Hc Hd ->.
  apply list_elem_of_In, H in Hc. by apply bool_decide_eq_true_1 in Hc.
Qed.

Ltac fresh_ne H :=
  apply (fresh_columns_ne _ _ _ H);
  [ unfold expected_cols; set_solver
  | unfold derived_columns; set_solver ].

(** ** The dict of [replace] *)

Lemma censor_dict_deceased (cfg : Config) :
  Stage.censor_dict cfg !! vital_status_value_deceased cfg = Some 1.
Proof. unfold Stage.censor_dict. by rewrite lookup_insert_eq. Qed.

Lemma censor_dict_alive (cfg : Config) :
  vital_status_value_alive cfg ≠ vital_status_value_deceased cfg ->
  Stage.censor_dict cfg !! vital_status_value_alive cfg = Some 0.
Proof.
  intros H. unfold Stage.censor_dict.
  rewrite lookup_insert_ne by done. by rewrite lookup_insert_eq.
Qed.

Lemma censor_dict_other (cfg : Config) (s : string) :
  s ≠ vital_status_value_alive cfg -> s ≠ vital_status_value_deceased cfg ->
  Stage.censor_dict cfg !! s = None.
Proof.
  intros Ha Hd. unfold Stage.censor_dict.
  rewrite !lookup_insert_ne by done. apply lookup_empty.
Qed.

Lemma cell_eq_str_true (c : cell) (s : string) :
  cell_eq_str c s = true <-> c = CStr s.
Proof.
  destruct c; simpl; try (split; [discriminate | discriminate]).
  rewrite String.eqb_eq. split; [by intros -> | by intros [= ->]].
Qed.

Lemma cell_eq_str_false (c : cell) (s : string) :
  cell_eq_str c s = false <-> c ≠ CStr s.
Proof.
  rewrite <- cell_eq_str_true. destruct (cell_eq_str c s); split; congruence.
Qed.

(** ** Scenario A *)

(** C1 (as amended): with column names that are not names of derived
    columns and two different sentinel values, a row of the table whose
    diagnosis fields give 2015-01-01, whose last-contact fields give
    2019-06-15 and whose vital status is the alive sentinel is retained, and
    the line written for it is its identifier, censor 0 and 1626 survival
    days, the last-contact date (no later than the study end, so not clipped)
    minus the diagnosis date in whole days. *)
Theorem scenario_A_retained (cfg : Config) (df : DataFrame) (r : row) :
  fresh_columns cfg = true ->
  vital_status_value_alive cfg ≠ vital_status_value_deceased cfg ->
  r ∈ rows df ->
  to_datetime (get_dt_diagnosis r (col_dod_yyyy cfg) (col_dod_mm cfg)
                 (col_dod_dd cfg)) =
    CTimestamp (Calendar.days_from_civil 2015 1 1) ->
  to_datetime (get_dt_last_contact r (col_dolc_yyyy cfg) (col_dolc_mm cfg)
                 (col_dolc_dd cfg)) =
    CTimestamp (Calendar.days_from_civil 2019 6 15) ->
  getitem r (col_vital_status cfg) = CStr (vital_status_value_alive cfg) ->
  exists r',
    r' ∈ rows (Stage.transform cfg df) /\
    getitem r' Row.clipped = CTimestamp (Calendar.days_from_civil 2019 6 15) /\
    Row.line cfg r' = [getitem r (col_index cfg); CInt 0; CInt 1626] /\
    1626 = Calendar.days_from_civil 2019 6 15 - Calendar.days_from_civil 2015 1 1.
Proof.
  intros Hfresh Hne Hin Hd Hl Hvs.
  assert (Hdod : getitem (Row.dates cfg r) Row.dod =
                 CTimestamp (Calendar.days_from_civil 2015 1 1))
    by (by rewrite dates_dod).
  assert (Hdolc : getitem (Row.dates cfg r) Row.dolc =
                  CTimestamp (Calendar.days_from_civil 2019 6 15)).
  { rewrite dates_dolc_input; [done | fresh_ne Hfresh ..]. }
  exists (Row.finish cfg (Row.adjust cfg (Row.dates cfg r))).
  split; [| split; [| split]].
  - apply elem_of_transform. exists r. split; [done |].
    apply process_Some. eexists _, _. repeat split; [exact Hdod | exact Hdolc |].
    by vm_compute.
  - by rewrite (retained_clipped _ _ _ Hdolc).
  - unfold Row.line, Stage.cols. cbn [map].
    fold Row.censor Row.survivalA.
    rewrite (retained_other cfg r (col_index cfg)) by fresh_ne Hfresh.
    rewrite (retained_censor cfg r), (retained_vsase _ _ _ Hdolc).
    rewrite (retained_survivalA _ _ _ _ Hdod Hdolc).
    rewrite dates_other by fresh_ne Hfresh.
    rewrite Hvs. cbn [replace andb].
    replace (study_end_days <? Calendar.days_from_civil 2019 6 15) with false
      by (by vm_compute).
    cbn [andb replace]. by rewrite censor_dict_alive.
  - by vm_compute.
Qed.

Lemma scenario_A_retained_witness :
  exists r',
    r' ∈ rows (Stage.transform default_cfg cohort) /\
    getitem r' Row.clipped = CTimestamp (Calendar.days_from_civil 2019 6 15) /\
    Row.line default_cfg r' = [CStr "A"; CInt 0; CInt 1626] /\
    1626 = Calendar.days_from_civil 2019 6 15 - Calendar.days_from_civil 2015 1 1.
Proof.
  apply (scenario_A_retained default_cfg cohort patient_A).
  - reflexivity.
  - discriminate.
  - constructor.
  - reflexivity.
  - reflexivity.
  - reflexivity.
Defined.

(** The claim as the specification words it, with 1627 survival days, fails
    on the row of scenario A. *)
Lemma scenario_A_not_1627 :
  ~ (exists r',
       Row.process default_cfg patient_A = Some r' /\
       getitem r' Row.censor = CInt 0 /\
       getitem r' Row.survivalA = CInt 1627).
Proof.
  intros (r' & Hp & _ & Hs).
  apply process_Some in Hp as (dd & lc & Hd & Hl & _ & ->).
  rewrite (retained_survivalA _ _ _ _ Hd Hl) in Hs.
  vm_compute in Hd, Hl. injection Hd as <-. injection Hl as <-.
  vm_compute in Hs. discriminate.
Qed.

(** ** Vital status at the study end *)

(** C2: when the vital-status column is not one of the two derived date
    columns, every retained row comes from a row of the input, and its
    [vital_status_at_study_end] is the alive sentinel if the raw vital status
    is the deceased sentinel and the unclipped last-contact date is after
    2020-12-31, and the raw vital status, whatever it is, in every other
    case. *)
Theorem vital_status_at_study_end_correct (cfg : Config) (df : DataFrame) (r' : row) :
  col_vital_status cfg ≠ Row.dod ->
  col_vital_status cfg ≠ Row.dolc ->
  r' ∈ rows (Stage.transform cfg df) ->
  exists r lc,
    r ∈ rows df /\ Row.process cfg r = Some r' /\
    getitem r' Row.dolc = CTimestamp lc /\
    (getitem r (col_vital_status cfg) = CStr (vital_status_value_deceased cfg) /\
     Calendar.days_from_civil 2020 12 31 < lc ->
     getitem r' Row.vsase = CStr (vital_status_value_alive cfg)) /\
    (~ (getitem r (col_vital_status cfg) = CStr (vital_status_value_deceased cfg) /\
        Calendar.days_from_civil 2020 12 31 < lc) ->
     getitem r' Row.vsase = getitem r (col_vital_status cfg)).
Proof.
  intros Hn1 Hn2 Hin. apply elem_of_transform in Hin as (r & Hin & Hp).
  pose proof Hp as Hp'. apply process_Some in Hp' as (dd & lc & Hd & Hl & _ & ->).
  exists r, lc. split; [done |]. split; [done |].
  split; [by apply retained_dolc |].
  rewrite (retained_vsase _ _ _ Hl), dates_other by done.
  fold study_end_days. split.
  - intros [-> Hlt]. simpl. rewrite String.eqb_refl.
    destruct (study_end_days <? lc) eqn:E; [done | lia].
  - intros Hnot.
    destruct (study_end_days <? lc) eqn:E; [| done].
    destruct (cell_eq_str _ _) eqn:E'; [| done].
    exfalso. apply Hnot. split; [by apply cell_eq_str_true | lia].
Qed.

Lemma vital_status_at_study_end_correct_witness :
  exists r lc,
    r ∈ rows cohort /\
    Row.process default_cfg r =
      Some (Row.finish default_cfg (Row.adjust default_cfg
              (Row.dates default_cfg patient_B))) /\
    getitem (Row.finish default_cfg (Row.adjust default_cfg
               (Row.dates default_cfg patient_B))) Row.dolc = CTimestamp lc /\
    (getitem r "D_VITAL_STATUS" = CStr "Dead" /\
     Calendar.days_from_civil 2020 12 31 < lc ->
     getitem (Row.finish default_cfg (Row.adjust default_cfg
                (Row.dates default_cfg patient_B))) Row.vsase = CStr "Alive") /\
    (~ (getitem r "D_VITAL_STATUS" = CStr "Dead" /\
        Calendar.days_from_civil 2020 12 31 < lc) ->
     getitem (Row.finish default_cfg (Row.adjust default_cfg
                (Row.dates default_cfg patient_B))) Row.vsase =
     getitem r "D_VITAL_STATUS").
Proof.
  apply (vital_status_at_study_end_correct default_cfg cohort).
  - discriminate.
  - discriminate.
  - apply elem_of_transform. exists patient_B. split.
    + right. left.
    + reflexivity.
Defined.

(** ** Scenario B *)

(** C3: with column names that are not names of derived columns and two
    different sentinel values, a row whose diagnosis fields give 2015-01-01,
    whose last-contact fields give 2021-03-01 and whose vital status is the
    deceased sentinel is retained as alive at the study end, with the
    last-contact date clipped to 2020-12-31, and the line written for it is
    its identifier, censor 0 and 2191 survival days. *)
Theorem scenario_B_reclassified (cfg : Config) (df : DataFrame) (r : row) :
  fresh_columns cfg = true ->
  vital_status_value_alive cfg ≠ vital_status_value_deceased cfg ->
  r ∈ rows df ->
  to_datetime (get_dt_diagnosis r (col_dod_yyyy cfg) (col_dod_mm cfg)
                 (col_dod_dd cfg)) =
    CTimestamp (Calendar.days_from_civil 2015 1 1) ->
  to_datetime (get_dt_last_contact r (col_dolc_yyyy cfg) (col_dolc_mm cfg)
                 (col_dolc_dd cfg)) =
    CTimestamp (Calendar.days_from_civil 2021 3 1) ->
  getitem r (col_vital_status cfg) = CStr (vital_status_value_deceased cfg) ->
  exists r',
    r' ∈ rows (Stage.transform cfg df) /\
    getitem r' Row.vsase = CStr (vital_status_value_alive cfg) /\
    getitem r' Row.clipped = CTimestamp (Calendar.days_from_civil 2020 12 31) /\
    Row.line cfg r' = [getitem r (col_index cfg); CInt 0; CInt 2191] /\
    2191 = Calendar.days_from_civil 2020 12 31 - Calendar.days_from_civil 2015 1 1.
Proof.
  intros Hfresh Hne Hin Hd Hl Hvs.
  assert (Hdod : getitem (Row.dates cfg r) Row.dod =
                 CTimestamp (Calendar.days_from_civil 2015 1 1))
    by (by rewrite dates_dod).
  assert (Hdolc : getitem (Row.dates cfg r) Row.dolc =
                  CTimestamp (Calendar.days_from_civil 2021 3 1)).
  { rewrite dates_dolc_input; [done | fresh_ne Hfresh ..]. }
  assert (Hv : getitem (Row.finish cfg (Row.adjust cfg (Row.dates cfg r))) Row.vsase
               = CStr (vital_status_value_alive cfg)).
  { rewrite (retained_vsase _ _ _ Hdolc).
    rewrite dates_other by fresh_ne Hfresh.
    rewrite Hvs. simpl. rewrite String.eqb_refl.
    replace (study_end_days <? Calendar.days_from_civil 2021 3 1) with true
      by (by vm_compute).
    reflexivity. }
  exists (Row.finish cfg (Row.adjust cfg (Row.dates cfg r))).
  split; [| split; [| split; [| split]]].
  - apply elem_of_transform. exists r. split; [done |].
    apply process_Some. eexists _, _. repeat split; [exact Hdod | exact Hdolc |].
    by vm_compute.
  - exact Hv.
  - by rewrite (retained_clipped _ _ _ Hdolc).
  - unfold Row.line, Stage.cols. cbn [map].
    fold Row.censor Row.survivalA.
    rewrite (retained_other cfg r (col_index cfg)) by fresh_ne Hfresh.
    rewrite (retained_censor cfg r), Hv.
    rewrite (retained_survivalA _ _ _ _ Hdod Hdolc).
    cbn [replace]. by rewrite censor_dict_alive.
  - by vm_compute.
Qed.

Lemma scenario_B_reclassified_witness :
  exists r',
    r' ∈ rows (Stage.transform default_cfg cohort) /\
    getitem r' Row.vsase = CStr "Alive" /\
    getitem r' Row.clipped = CTimestamp (Calendar.days_from_civil 2020 12 31) /\
    Row.line default_cfg r' = [CStr "B"; CInt 0; CInt 2191] /\
    2191 = Calendar.days_from_civil 2020 12 31 - Calendar.days_from_civil 2015 1 1.
Proof.
  apply (scenario_B_reclassified default_cfg cohort patient_B).
  - reflexivity.
  - discriminate.
  - right. left.
  - reflexivity.
  - reflexivity.
  - reflexivity.
Defined.

(** ** Clipping *)

(** C4: for every retained row, reclassified or not, the clipped
    last-contact date is the minimum of the last-contact date and the study
    end 2020-12-31; so it is never after the study end, and it is the
    last-contact date itself when that is not after the study end. *)
Theorem clipped_is_min (cfg : Config) (df : DataFrame) (r' : row) :
  r' ∈ rows (Stage.transform cfg df) ->
  exists lc,
    getitem r' Row.dolc = CTimestamp lc /\
    getitem r' Row.clipped =
      CTimestamp (Z.min lc (Calendar.days_from_civil 2020 12 31)) /\
    cell_le (getitem r' Row.clipped) END_DATE = true /\
    (lc <= Calendar.days_from_civil 2020 12 31 ->
     getitem r' Row.clipped = getitem r' Row.dolc).
Proof.
  intros Hin. apply elem_of_transform in Hin as (r & Hin & Hp).
  apply process_Some in Hp as (dd & lc & Hd & Hl & _ & ->).
  exists lc. fold study_end_days.
  rewrite (retained_dolc _ _ _ Hl), (retained_clipped _ _ _ Hl), END_DATE_eq.
  split; [done |]. split; [done |]. split.
  - simpl. apply Z.leb_le. lia.
  - intros Hle. f_equal. lia.
Qed.

Lemma clipped_is_min_witness :
  exists lc,
    getitem (Row.finish default_cfg (Row.adjust default_cfg
               (Row.dates default_cfg patient_B))) Row.dolc = CTimestamp lc /\
    getitem (Row.finish default_cfg (Row.adjust default_cfg
               (Row.dates default_cfg patient_B))) Row.clipped =
      CTimestamp (Z.min lc (Calendar.days_from_civil 2020 12 31)) /\
    cell_le (getitem (Row.finish default_cfg (Row.adjust default_cfg
                        (Row.dates default_cfg patient_B))) Row.clipped)
      END_DATE = true /\
    (lc <= Calendar.days_from_civil 2020 12 31 ->
     getitem (Row.finish default_cfg (Row.adjust default_cfg
                (Row.dates default_cfg patient_B))) Row.clipped =
     getitem (Row.finish default_cfg (Row.adjust default_cfg
                (Row.dates default_cfg patient_B))) Row.dolc).
Proof.
  apply (clipped_is_min default_cfg cohort).
  apply elem_of_transform. exists patient_B. split.
  - right. left.
  - reflexivity.
Defined.

(** ** Survival days *)

Lemma line_in_project (cfg : Config) (df : DataFrame) (r' : row) :
  r' ∈ rows df -> Row.line cfg r' ∈ project (Stage.cols cfg) df.
Proof.
  intros Hin. unfold project, Row.line.
  apply (list_elem_of_fmap_2 (fun r => map (getitem r) (Stage.cols cfg))).
  exact Hin.
Qed.

Section Survival.

Context {kwargs : Type} (pd : Readers kwargs).

(** C5: the survival days of a retained row are the clipped last-contact
    date minus the diagnosis date, a whole number of days that is not
    negative when the diagnosis is not after the clipped last contact, and
    negative when the diagnosis is after the last contact. Nothing compares
    the two dates: a row of the input whose dates parse, with the diagnosis
    not after the study end but after the last contact, is retained all the
    same, with a negative number of survival days; and on a run that passes
    the checks, with a vital-status column that is not one of the two derived
    date columns, the program returns normally and the line of that row is in
    the file it has written. *)
Theorem survival_days_sign (cfg : Config) (w : World) (df : DataFrame) :
  (forall r', r' ∈ rows (Stage.transform cfg df) ->
     exists dd lc cl,
       getitem r' Row.dod = CTimestamp dd /\
       getitem r' Row.dolc = CTimestamp lc /\
       getitem r' Row.clipped = CTimestamp cl /\
       getitem r' Row.survivalA = CInt (cl - dd) /\
       (dd <= cl -> 0 <= cl - dd) /\
       (lc < dd -> cl - dd < 0)) /\
  (forall r dd lc,
     r ∈ rows df ->
     getitem (Row.dates cfg r) Row.dod = CTimestamp dd ->
     getitem (Row.dates cfg r) Row.dolc = CTimestamp lc ->
     dd <= Calendar.days_from_civil 2020 12 31 ->
     lc < dd ->
     exists r',
       r' ∈ rows (Stage.transform cfg df) /\
       Row.process cfg r = Some r' /\
       getitem r' Row.survivalA = CInt (lc - dd) /\
       lc - dd < 0 /\
       (fs w !! outpath cfg = None ->
        reads pd cfg w df ->
        all_present cfg df = true ->
        occurs (vital_status_value_alive cfg) cfg df = true ->
        col_vital_status cfg ≠ Row.dod ->
        col_vital_status cfg ≠ Row.dolc ->
        (main pd cfg w).1 = Ok tt /\
        exists body,
          fs (main pd cfg w).2 !! outpath cfg = Some (Csv (Stage.cols cfg) body) /\
          Row.line cfg r' ∈ body)).
Proof.
  split.
  - intros r' Hin. apply elem_of_transform in Hin as (r & Hin & Hp).
    apply process_Some in Hp as (dd & lc & Hd & Hl & Hle & ->).
    exists dd, lc, (Z.min lc study_end_days).
    rewrite (retained_dod _ _ _ Hd), (retained_dolc _ _ _ Hl).
    rewrite (retained_clipped _ _ _ Hl), (retained_survivalA _ _ _ _ Hd Hl).
    repeat split; lia.
  - intros r dd lc Hin Hd Hl Hle Hlt. fold study_end_days in Hle.
    exists (Row.finish cfg (Row.adjust cfg (Row.dates cfg r))).
    assert (Hp : Row.process cfg r =
                 Some (Row.finish cfg (Row.adjust cfg (Row.dates cfg r)))).
    { apply process_Some. by exists dd, lc. }
    assert (Hr' : Row.finish cfg (Row.adjust cfg (Row.dates cfg r)) ∈
                  rows (Stage.transform cfg df))
      by (apply elem_of_transform; by exists r).
    split; [done |]. split; [done |].
    rewrite (retained_survivalA _ _ _ _ Hd Hl).
    split; [f_equal; lia |]. split; [lia |].
    intros Hout Hreads Hcols Ha _ _.
    rewrite (main_completes pd _ _ _ Hout Hreads Hcols Ha). cbn [fst snd fs].
    split; [reflexivity |].
    exists (project (Stage.cols cfg) (Stage.transform cfg df)).
    split; [apply lookup_insert_eq |].
    apply line_in_project. exact Hr'.
Qed.

End Survival.

Lemma survival_days_sign_witness :
  (exists dd lc cl,
     getitem (Row.finish default_cfg (Row.adjust default_cfg
                (Row.dates default_cfg patient_A))) Row.dod = CTimestamp dd /\
     getitem (Row.finish default_cfg (Row.adjust default_cfg
                (Row.dates default_cfg patient_A))) Row.dolc = CTimestamp lc /\
     getitem (Row.finish default_cfg (Row.adjust default_cfg
                (Row.dates default_cfg patient_A))) Row.clipped = CTimestamp cl /\
     getitem (Row.finish default_cfg (Row.adjust default_cfg
                (Row.dates default_cfg patient_A))) Row.survivalA = CInt (cl - dd) /\
     (dd <= cl -> 0 <= cl - dd) /\
     (lc < dd -> cl - dd < 0)) /\
  (exists r',
     Row.process default_cfg patient_N = Some r' /\
     getitem r' Row.survivalA = CInt (16436 - 18062) /\
     (main (readers_of cohort) default_cfg input_only).1 = Ok tt /\
     exists body,
       fs (main (readers_of cohort) default_cfg input_only).2 !! "survival.csv" =
         Some (Csv ["STUDYID"; "censorA.0yes.1no"; "survivalA"] body) /\
       Row.line default_cfg r' ∈ body).
Proof.
  split.
  - apply (proj1 (survival_days_sign (readers_of cohort) default_cfg input_only
                    cohort)).
    apply elem_of_transform. exists patient_A. split; [left | reflexivity].
  - destruct (proj2 (survival_days_sign (readers_of cohort) default_cfg input_only
                       cohort) patient_N 18062 16436)
      as (r' & _ & Hp & Hs & _ & Hrun).
    + do 5 right. left.
    + reflexivity.
    + reflexivity.
    + vm_compute. discriminate.
    + lia.
    + exists r'. split; [exact Hp |]. split; [exact Hs |]. apply Hrun.
      * reflexivity.
      * exists tt, (Raw ""). split; [reflexivity |]. split; [reflexivity |].
        right. left. split; reflexivity.
      * reflexivity.
      * reflexivity.
      * discriminate.
      * discriminate.
Defined.

(** ** The date parser on three fields *)

Lemma list_ascii_of_string_app (a b : string) :
  list_ascii_of_string (a +:+ b) = list_ascii_of_string a ++ list_ascii_of_string b.
Proof. induction a as [| c a IH]; simpl; [done | by rewrite IH]. Qed.

Section Parsing.

Local Open Scope char_scope.

Local Abbreviation dash := "-"%char.

Lemma digit_dash (l : list ascii) : Parse.digit (dash :: l) = None.
Proof. reflexivity. Qed.

Lemma short_chars_dash (a b : list ascii) :
  Field.short_chars (a ++ dash :: b) = None.
Proof.
  destruct a as [| c1 [| c2 a]]; simpl.
  - by destruct b as [| c b]; [| destruct b].
  - destruct b; [| done]. by rewrite andb_false_r.
  - by destruct a.
Qed.

Ltac by_digits :=
  repeat (simpl;
          match goal with
          | |- context [if Parse.is_digit ?c then _ else _] =>
              destruct (Parse.is_digit c)
          end);
  simpl; try done.

Ltac dash_case c :=
  let E := fresh "E" in
  destruct (Ascii.eqb c dash) eqn:E;
  [ apply Ascii.eqb_eq in E; subst c | ]; simpl; try done.

Ltac by_dashes :=
  repeat match goal with
         | |- context [Ascii.eqb ?c dash] => dash_case c
         end.

Lemma day_end_short_chars (l : list ascii) : Parse.day_end l = Field.short_chars l.
Proof.
  unfold Parse.day_end, Parse.number12.
  destruct l as [| c1 [| c2 [| c3 l]]]; by_digits.
Qed.

Lemma day_end_dash {A} (a b : list ascii) (k : Z -> option A) :
  Parse.day_end (a ++ dash :: b) ≫= k = None.
Proof. by rewrite day_end_short_chars, short_chars_dash. Qed.

(** A text with two dashes after its first number is no month and day. *)
Lemma month_day_two_dashes (x y z : list ascii) :
  Parse.month_day (x ++ dash :: y ++ dash :: z) = None.
Proof.
  unfold Parse.month_day, Parse.number12.
  destruct x as [| x1 [| x2 [| x3 x]]]; by_digits; by_dashes;
    first [ apply day_end_dash
          | apply (day_end_dash [])
          | apply (day_end_dash (_ :: _)) ].
Qed.

(** Month and day of a text are the month before its dash and the day after
    it. *)
Lemma month_day_fields (lm ld : list ascii) :
  Parse.month_day (lm ++ dash :: ld) =
  match Field.short_chars lm, Field.short_chars ld with
  | Some m, Some d => Some (m, d)
  | _, _ => None
  end.
Proof.
  unfold Parse.month_day, Parse.number12.
  destruct lm as [| c1 [| c2 [| c3 lm]]]; by_digits; by_dashes;
    first [ rewrite day_end_short_chars; by destruct (Field.short_chars ld)
          | apply day_end_dash
          | apply (day_end_dash [])
          | apply (day_end_dash (_ :: _)) ].
Qed.

Lemma parse_fields (ly lm ld : list ascii) :
  ('(y, r) ← Parse.number4 (ly ++ dash :: lm ++ dash :: ld);
   r ← Parse.expect_dash r;
   '(m, d) ← Parse.month_day r;
   Some (y, m, d)) =
  match Field.year_chars ly, Field.short_chars lm, Field.short_chars ld with
  | Some y, Some m, Some d => Some (y, m, d)
  | _, _, _ => None
  end.
Proof.
  unfold Parse.number4.
  destruct ly as [| c1 [| c2 [| c3 [| c4 [| c5 ly]]]]]; by_digits.
  - rewrite month_day_fields.
    by destruct (Field.short_chars lm), (Field.short_chars ld).
  - by_dashes. by rewrite month_day_two_dashes.
Qed.

End Parsing.

(** [to_datetime] of the text made of three fields is the date the fields
    denote, when they denote one that a timestamp can hold, and [NaT]
    otherwise. *)
Lemma to_datetime_fields (y m d : cell) :
  to_datetime (str_of_cell y +:+ "-" +:+ str_of_cell m +:+ "-" +:+ str_of_cell d) =
  match Field.date_of y m d with
  | Some (Y, M, D) =>
      if Parse.in_bounds (Calendar.days_from_civil Y M D)
      then CTimestamp (Calendar.days_from_civil Y M D) else CNaT
  | None => CNaT
  end.
Proof.
  unfold to_datetime, Parse.parse_ymd, Field.date_of.
  rewrite !list_ascii_of_string_app. simpl (list_ascii_of_string "-").
  cbn [app]. rewrite parse_fields.
  destruct (Field.year_chars _) as [Y|]; [| done].
  destruct (Field.short_chars _) as [M|]; [| done].
  destruct (Field.short_chars _) as [D|]; [| done].
  by destruct (Calendar.valid_ymd Y M D).
Qed.

(** ** Integer fields *)

Lemma forallb_Zrange (P : Z -> bool) (lo : Z) (n : nat) (z : Z) :
  forallb P (Zrange lo n) = true -> lo <= z < lo + Z.of_nat n -> P z = true.
Proof.
  intros H Hz. rewrite forallb_forall in H. apply H.
  unfold Zrange. apply in_map_iff. exists (Z.to_nat (z - lo)).
  split; [lia |]. apply in_seq. lia.
Qed.

Lemma valid_ymd_bounds (y m d : Z) :
  Calendar.valid_ymd y m d = true -> 1 <= m <= 12 /\ 1 <= d <= 31.
Proof.
  unfold Calendar.valid_ymd. rewrite !andb_true_iff, !Z.leb_le.
  intros [[[Hm1 Hm2] Hd1] Hd2]. split; [lia |]. split; [lia |].
  assert (Calendar.days_in_month y m <= 31); [| lia].
  unfold Calendar.days_in_month.
  assert (Hcases : m = 1 \/ m = 2 \/ m = 3 \/ m = 4 \/ m = 5 \/ m = 6 \/ m = 7 \/
                   m = 8 \/ m = 9 \/ m = 10 \/ m = 11 \/ m = 12) by lia.
  repeat (destruct Hcases as [-> | Hcases]); try subst m;
    try destruct (Calendar.is_leap y); lia.
Qed.

Lemma days_before_month_bounds (y m : Z) :
  1 <= m <= 12 -> 0 <= Calendar.days_before_month y m <= 335.
Proof.
  intros Hm. unfold Calendar.days_before_month.
  assert (Hcases : m = 1 \/ m = 2 \/ m = 3 \/ m = 4 \/ m = 5 \/ m = 6 \/ m = 7 \/
                   m = 8 \/ m = 9 \/ m = 10 \/ m = 11 \/ m = 12) by lia.
  repeat (destruct Hcases as [-> | Hcases]); try subst m; simpl;
    destruct (Calendar.is_leap y); lia.
Qed.

(** The dates of the years 1678 to 2261 are days that a timestamp holds. *)
Lemma in_bounds_years (y m d : Z) :
  1678 <= y <= 2261 -> Calendar.valid_ymd y m d = true ->
  Parse.in_bounds (Calendar.days_from_civil y m d) = true.
Proof.
  intros Hy Hv. apply valid_ymd_bounds in Hv as [Hm Hd].
  pose proof (days_before_month_bounds y m Hm) as Hb.
  unfold Parse.in_bounds, Parse.max_days, Calendar.days_from_civil,
    Calendar.ymd2ord, Calendar.days_before_year, Calendar.epoch_ord.
  apply andb_true_iff. rewrite !Z.leb_le.
  remember (Calendar.days_before_month y m) as b.
  cbv zeta. Z.div_mod_to_equations. lia.
Qed.

Lemma years_print : forallb year_prints (Zrange 1678 584) = true.
Proof. vm_compute. reflexivity. Qed.

Lemma shorts_print : forallb short_prints (Zrange 1 31) = true.
Proof. vm_compute. reflexivity. Qed.

Lemma date_of_integers (y m d : Z) :
  1678 <= y <= 2261 -> Calendar.valid_ymd y m d = true ->
  Field.date_of (CInt y) (CInt m) (CInt d) = Some (y, m, d).
Proof.
  intros Hy Hv. pose proof (valid_ymd_bounds _ _ _ Hv) as [Hm Hd].
  unfold Field.date_of. cbn [str_of_cell].
  pose proof (forallb_Zrange _ _ _ y years_print ltac:(lia)) as Py.
  pose proof (forallb_Zrange _ _ _ m shorts_print ltac:(lia)) as Pm.
  pose proof (forallb_Zrange _ _ _ d shorts_print ltac:(lia)) as Pd.
  apply bool_decide_eq_true_1 in Py, Pm, Pd.
  by rewrite Py, Pm, Pd, Hv.
Qed.

(** ** Unparseable dates *)






Section Unparseable.

Context {kwargs : Type} (pd : Readers kwargs).


End Unparseable.


(** ** The checks before the transformation *)

Section Checks.

Context {kwargs : Type} (pd : Readers kwargs).

(** C7: when the table has been read and has all the required columns, a
    vital-status column without the alive value ends the program with exit
    code 1 after the red message, with the file system as it was and none
    of the pipeline's output; a column with the alive value but without the
    deceased value gets the yellow warning only, and the program goes on to
    write the output and return. *)
Theorem sentinel_checks (cfg : Config) (w : World) (df : DataFrame) :
  fs w !! outpath cfg = None ->
  reads pd cfg w df ->
  all_present cfg df = true ->
  (occurs (vital_status_value_alive cfg) cfg df = false ->
   main pd cfg w =
     (SysExit 1,
      {| fs := fs w;
         trace := trace w ++
                  [EvPathExists (outpath cfg);
                   EvRead (lower (filetype cfg)) (inpath cfg);
                   EvSecho (MsgAliveAbsent (col_vital_status cfg)
                              (vital_status_value_alive cfg)) Red] |}) /\
   (1 : Z) ≠ 0) /\
  (occurs (vital_status_value_alive cfg) cfg df = true ->
   occurs (vital_status_value_deceased cfg) cfg df = false ->
   main pd cfg w =
     (Ok tt,
      {| fs := <[outpath cfg :=
                   Csv (Stage.cols cfg)
                     (project (Stage.cols cfg) (Stage.transform cfg df))]> (fs w);
         trace := trace w ++
                  [EvPathExists (outpath cfg);
                   EvRead (lower (filetype cfg)) (inpath cfg);
                   EvSecho (MsgDeceasedAbsent (col_vital_status cfg)
                              (vital_status_value_deceased cfg)) Yellow] ++
                  pipeline_events cfg df |})).
Proof.
  intros Hout Hreads Hcols. split.
  - intros Ha. split; [| done].
    rewrite (main_alive_absent pd _ _ _ Hout Hreads Hcols Ha).
    unfold log, loaded; simpl. by rewrite <- app_assoc.
  - intros Ha Hd.
    rewrite (main_completes pd _ _ _ Hout Hreads Hcols Ha).
    unfold deceased_warning. rewrite Hd.
    unfold log, loaded; simpl. by rewrite <- !app_assoc.
Qed.

(** C8: when the output path exists at the start, the program prints the red
    message and ends with exit code 1; the file system is unchanged and no
    file has been read or written. In every run the test for the output path
    is the first event, and no further test of a path follows it. *)
Theorem existing_output_aborts (cfg : Config) (w : World) :
  is_Some (fs w !! outpath cfg) ->
  main pd cfg w =
    (SysExit 1,
     {| fs := fs w;
        trace := trace w ++
                 [EvPathExists (outpath cfg);
                  EvSecho (MsgOutputPathExists (outpath cfg)) Red] |}) /\
  (1 : Z) ≠ 0 /\
  forall w0 : World,
    exists t,
      trace (main pd cfg w0).2 = trace w0 ++ EvPathExists (outpath cfg) :: t /\
      no_check t = true.
Proof.
  intros Hex. split; [| split; [done |]].
  - by rewrite (main_outpath_exists pd _ _ Hex).
  - apply main_checks_once.
Qed.

End Checks.

Lemma sentinel_checks_witness :
  main (readers_of cohort_no_alive) default_cfg input_only =
    (SysExit 1,
     {| fs := fs input_only;
        trace := [EvPathExists "survival.csv"; EvRead "excel" "cohort.xlsx";
                  EvSecho (MsgAliveAbsent "D_VITAL_STATUS" "Alive") Red] |}) /\
  main (readers_of cohort_no_deceased) default_cfg input_only =
    (Ok tt,
     {| fs := <["survival.csv" :=
                 Csv ["STUDYID"; "censorA.0yes.1no"; "survivalA"]
                   [ [CStr "A"; CInt 0; CInt 1626];
                     [CStr "U"; CStr "Unknown"; CInt 731] ]]> (fs input_only);
        trace := [EvPathExists "survival.csv"; EvRead "excel" "cohort.xlsx";
                  EvSecho (MsgDeceasedAbsent "D_VITAL_STATUS" "Dead") Yellow] ++
                 pipeline_events default_cfg cohort_no_deceased |}).
Proof.
  split.
  - refine (proj1 (proj1 (sentinel_checks (readers_of cohort_no_alive) default_cfg
                            input_only cohort_no_alive _ _ _) _)).
    + reflexivity.
    + exists tt, (Raw ""). split; [reflexivity |]. split; [reflexivity |].
      right. left. split; reflexivity.
    + reflexivity.
    + reflexivity.
  - refine (proj2 (sentinel_checks (readers_of cohort_no_deceased) default_cfg
                     input_only cohort_no_deceased _ _ _) _ _).
    + reflexivity.
    + exists tt, (Raw ""). split; [reflexivity |]. split; [reflexivity |].
      right. left. split; reflexivity.
    + reflexivity.
    + reflexivity.
    + reflexivity.
Defined.

Lemma existing_output_aborts_witness :
  main (readers_of cohort) default_cfg output_there =
    (SysExit 1,
     {| fs := fs output_there;
        trace := [EvPathExists "survival.csv";
                  EvSecho (MsgOutputPathExists "survival.csv") Red] |}).
Proof.
  refine (proj1 (existing_output_aborts (readers_of cohort) default_cfg
                   output_there _)).
  exists (Raw "old"). reflexivity.
Defined.

(** ** The censor column *)

(** C9 (as amended): when the vital-status column is not one of the two
    derived date columns, every retained row comes from a row of the input,
    and if its [vital_status_at_study_end] is neither of the two sentinel
    values, its censor cell is that value itself, which is the raw vital
    status of the input row; so the censor is missing, 0 or 1 exactly when
    the raw value is. A censor cell differs from [vital_status_at_study_end]
    only for the two sentinel values: the deceased value gives 1, and the
    alive value gives 0 when it is not also the deceased value. *)
Theorem censor_passes_other_values (cfg : Config) (df : DataFrame) (r' : row) :
  col_vital_status cfg ≠ Row.dod ->
  col_vital_status cfg ≠ Row.dolc ->
  r' ∈ rows (Stage.transform cfg df) ->
  exists r,
    r ∈ rows df /\ Row.process cfg r = Some r' /\
    (getitem r' Row.vsase ≠ CStr (vital_status_value_alive cfg) ->
     getitem r' Row.vsase ≠ CStr (vital_status_value_deceased cfg) ->
     getitem r' Row.censor = getitem r' Row.vsase /\
     getitem r' Row.censor = getitem r (col_vital_status cfg)) /\
    (getitem r' Row.censor ≠ getitem r' Row.vsase ->
     getitem r' Row.vsase = CStr (vital_status_value_alive cfg) \/
     getitem r' Row.vsase = CStr (vital_status_value_deceased cfg)) /\
    (getitem r' Row.vsase = CStr (vital_status_value_deceased cfg) ->
     getitem r' Row.censor = CInt 1) /\
    (getitem r' Row.vsase = CStr (vital_status_value_alive cfg) ->
     vital_status_value_alive cfg ≠ vital_status_value_deceased cfg ->
     getitem r' Row.censor = CInt 0).
Proof.
  intros Hn1 Hn2 Hin. apply elem_of_transform in Hin as (r & Hin & Hp).
  pose proof Hp as Hp'. apply process_Some in Hp' as (dd & lc & Hd & Hl & _ & ->).
  exists r. split; [done |]. split; [done |].
  rewrite (retained_censor cfg r).
  set (v := getitem (Row.finish cfg (Row.adjust cfg (Row.dates cfg r))) Row.vsase).
  assert (Hv : v = if (study_end_days <? lc) &&
                      cell_eq_str (getitem r (col_vital_status cfg))
                        (vital_status_value_deceased cfg)
                   then CStr (vital_status_value_alive cfg)
                   else getitem r (col_vital_status cfg)).
  { unfold v. by rewrite (retained_vsase _ _ _ Hl), dates_other by done. }
  assert (Hother : v ≠ CStr (vital_status_value_alive cfg) ->
                   v ≠ CStr (vital_status_value_deceased cfg) ->
                   replace (Stage.censor_dict cfg) v = v).
  { intros Ha Hdc. destruct v as [s| | | | | |]; try done. simpl.
    rewrite censor_dict_other; [done | congruence | congruence]. }
  repeat split.
  - by apply Hother.
  - rewrite (Hother H H0). rewrite Hv in *.
    destruct (_ && _); [done | reflexivity].
  - intros Hne.
    destruct (decide (v = CStr (vital_status_value_alive cfg))); [by left |].
    destruct (decide (v = CStr (vital_status_value_deceased cfg))); [by right |].
    exfalso. apply Hne. by apply Hother.
  - intros ->. simpl. by rewrite censor_dict_deceased.
  - intros -> Hne. simpl. by rewrite censor_dict_alive.
Qed.

Lemma censor_passes_other_values_witness :
  exists r,
    r ∈ rows cohort /\
    Row.process default_cfg r =
      Some (Row.finish default_cfg (Row.adjust default_cfg
              (Row.dates default_cfg patient_U))) /\
    getitem (Row.finish default_cfg (Row.adjust default_cfg
               (Row.dates default_cfg patient_U))) Row.censor = CStr "Unknown" /\
    getitem (Row.finish default_cfg (Row.adjust default_cfg
               (Row.dates default_cfg patient_U))) Row.censor =
    getitem r "D_VITAL_STATUS".
Proof.
  destruct (censor_passes_other_values default_cfg cohort
              (Row.finish default_cfg (Row.adjust default_cfg
                 (Row.dates default_cfg patient_U))))
    as (r & Hin & Hp & Hother & _).
  - discriminate.
  - discriminate.
  - apply elem_of_transform. exists patient_U. split.
    + do 4 right. left.
    + reflexivity.
  - exists r. split; [exact Hin |]. split; [exact Hp |].
    assert (Hne : forall s : string,
              s ≠ "Unknown" ->
              getitem (Row.finish default_cfg (Row.adjust default_cfg
                         (Row.dates default_cfg patient_U))) Row.vsase ≠ CStr s).
    { intros s Hs H. vm_compute in H. congruence. }
    destruct (Hother (Hne "Alive" ltac:(discriminate))
                (Hne "Dead" ltac:(discriminate))) as [H1 H2].
    split; [| exact H2]. rewrite H1. vm_compute. reflexivity.
Defined.

(** The claim as the specification words it, with a censor that is neither
    missing nor 0 or 1, fails: a retained row whose vital status is missing
    has a missing censor, and a retained row whose vital status is the
    integer 1 has the censor 1, though neither status is a sentinel value. *)
Lemma censor_may_be_missing_or_one :
  (exists r',
     r' ∈ rows (Stage.transform default_cfg cohort_missing) /\
     getitem r' Row.vsase ≠ CStr (vital_status_value_alive default_cfg) /\
     getitem r' Row.vsase ≠ CStr (vital_status_value_deceased default_cfg) /\
     getitem r' Row.censor = CNaN /\ isna (getitem r' Row.censor) = true) /\
  (exists r',
     r' ∈ rows (Stage.transform default_cfg cohort_one) /\
     getitem r' Row.vsase ≠ CStr (vital_status_value_alive default_cfg) /\
     getitem r' Row.vsase ≠ CStr (vital_status_value_deceased default_cfg) /\
     getitem r' Row.censor = CInt 1).
Proof.
  split.
  - exists (Row.finish default_cfg (Row.adjust default_cfg
              (Row.dates default_cfg patient_M))).
    split; [| split; [| split; [| split]]].
    + apply elem_of_transform. exists patient_M. split; [| reflexivity].
      right. left.
    + intros H. vm_compute in H. congruence.
    + intros H. vm_compute in H. congruence.
    + reflexivity.
    + reflexivity.
  - exists (Row.finish default_cfg (Row.adjust default_cfg
              (Row.dates default_cfg patient_I))).
    split; [| split; [| split]].
    + apply elem_of_transform. exists patient_I. split; [| reflexivity].
      right. left.
    + intros H. vm_compute in H. congruence.
    + intros H. vm_compute in H. congruence.
    + reflexivity.
Qed.

(** ** Order of the output *)

Section Positions.

Context {A B : Type} (f : A -> option B).

Lemma StronglySorted_lt_map_S (idx : list nat) :
  StronglySorted Nat.lt idx -> StronglySorted Nat.lt (map S idx).
Proof.
  induction 1 as [| i idx Hs IH Hall]; simpl; constructor; [done |].
  rewrite Forall_map. eapply Forall_impl; [exact Hall |].
  intros j Hj. simpl. unfold Nat.lt in *. lia.
Qed.

(** The results of [omap] come from strictly increasing positions of the
    list. *)
Lemma omap_positions (l : list A) :
  exists idx : list nat,
    StronglySorted Nat.lt idx /\
    Forall2 (fun i y => exists x, l !! i = Some x /\ f x = Some y) idx (omap f l).
Proof.
  induction l as [| x l (idx & Hs & Hall)]; [exists []; split; constructor |].
  assert (Hshift :
    Forall2 (fun i y => exists x0, (x :: l) !! i = Some x0 /\ f x0 = Some y)
      (map S idx) (omap f l)).
  { rewrite Forall2_fmap_l. eapply Forall2_impl; [exact Hall |]. done. }
  cbn [omap list_omap]. destruct (f x) as [y|] eqn:Hfx.
  - exists (O :: map S idx). split.
    + constructor; [by apply StronglySorted_lt_map_S |].
      rewrite Forall_map. apply Forall_forall. intros j _. simpl.
      unfold Nat.lt. lia.
    + constructor; [by exists x | exact Hshift].
  - exists (map S idx). split; [by apply StronglySorted_lt_map_S | exact Hshift].
Qed.

End Positions.

Lemma sublist_List_filter {A} (p : A -> bool) (l : list A) :
  List.filter p l `sublist_of` l.
Proof.
  induction l as [| x l IH]; simpl; [constructor |].
  destruct (p x); by constructor.
Qed.

Lemma project_transform (cfg : Config) (df : DataFrame) :
  project (Stage.cols cfg) (Stage.transform cfg df) =
  omap (fun r => Row.line cfg <$> Row.process cfg r) (rows df).
Proof.
  unfold project. rewrite rows_transform.
  induction (rows df) as [| r l IH]; [done |].
  cbn [omap list_omap]. destruct (Row.process cfg r); simpl; by rewrite <- IH.
Qed.

Section Order.

Context {kwargs : Type} (pd : Readers kwargs).

(** C10: on a run that passes the checks, the body of the written file is
    the list of the lines of the retained rows, for the rows of the input
    taken in their order: the lines come from strictly increasing positions
    of the input table. Each of the two filters keeps a sublist of the rows
    it is given. *)
Theorem output_keeps_input_order (cfg : Config) (w : World) (df : DataFrame) :
  fs w !! outpath cfg = None ->
  reads pd cfg w df ->
  all_present cfg df = true ->
  occurs (vital_status_value_alive cfg) cfg df = true ->
  exists body : list (list cell),
    (main pd cfg w).1 = Ok tt /\
    fs (main pd cfg w).2 !! outpath cfg = Some (Csv (Stage.cols cfg) body) /\
    body = omap (fun r => Row.line cfg <$> Row.process cfg r) (rows df) /\
    (exists idx : list nat,
       StronglySorted Nat.lt idx /\
       Forall2 (fun i ln =>
                  exists r r', rows df !! i = Some r /\
                               Row.process cfg r = Some r' /\
                               ln = Row.line cfg r') idx body) /\
    (forall t : DataFrame, rows (Stage.drop_failed_dates t) `sublist_of` rows t) /\
    (forall t : DataFrame,
       rows (loc_rows (Stage.diagnosed_prior_to_study_end t) t) `sublist_of` rows t).
Proof.
  intros Hout Hreads Hcols Ha.
  exists (project (Stage.cols cfg) (Stage.transform cfg df)).
  rewrite (main_completes pd _ _ _ Hout Hreads Hcols Ha). cbn [fst snd fs].
  split; [done |]. split; [by rewrite lookup_insert_eq |].
  split; [apply project_transform |]. split; [| split].
  - rewrite project_transform.
    destruct (omap_positions (fun r => Row.line cfg <$> Row.process cfg r) (rows df))
      as (idx & Hs & Hall).
    exists idx. split; [done |]. eapply Forall2_impl; [exact Hall |].
    intros i ln (r & Hi & Hr). simpl in Hr.
    destruct (Row.process cfg r) as [r'|] eqn:Hp; [| done].
    injection Hr as <-. by exists r, r'.
  - intros t. rewrite rows_drop_failed_dates. apply sublist_List_filter.
  - intros t. rewrite rows_loc_rows, diagnosed_prior_rowwise.
    rewrite <- (map_id (rows t)) at 1. rewrite select_map_map, map_id.
    apply sublist_List_filter.
Qed.

End Order.

Lemma output_keeps_input_order_witness :
  exists body : list (list cell),
    (main (readers_of cohort) default_cfg input_only).1 = Ok tt /\
    fs (main (readers_of cohort) default_cfg input_only).2 !! "survival.csv" =
      Some (Csv ["STUDYID"; "censorA.0yes.1no"; "survivalA"] body) /\
    body = omap (fun r => Row.line default_cfg <$> Row.process default_cfg r)
             (rows cohort).
Proof.
  destruct (output_keeps_input_order (readers_of cohort) default_cfg input_only
              cohort) as (body & Hok & Hfile & Hbody & _).
  - reflexivity.
  - exists tt, (Raw ""). split; [reflexivity |]. split; [reflexivity |].
    right. left. split; reflexivity.
  - reflexivity.
  - reflexivity.
  - exists body. split; [exact Hok |]. split; [exact Hfile | exact Hbody].
Defined.

(** * Further properties of the program *)

(** ** The check of the columns *)

Lemma select_negb_mask {A} (p : A -> bool) (l : list A) :
  select l (map negb (map p l)) = List.filter (fun x => negb (p x)) l.
Proof.
  induction l as [| x l IH]; simpl; [done |].
  destruct (p x); simpl; by rewrite IH.
Qed.

Lemma forallb_false_witness {A} (p : A -> bool) (l : list A) :
  forallb p l = false -> exists x, x ∈ l /\ p x = false.
Proof.
  induction l as [| x l IH]; simpl; [done |].
  destruct (p x) eqn:Hx; simpl.
  - intros H. destruct (IH H) as (y & Hy & Hpy). exists y. split; [by right | done].
  - intros _. exists x. split; [by left | done].
Qed.

Lemma missing_cols_filter (cfg : Config) (df : DataFrame) :
  missing_cols cfg df =
  List.filter (fun c => negb (bool_decide (c ∈ columns df))) (expected_cols cfg).
Proof. unfold missing_cols. apply select_negb_mask. Qed.

Lemma elem_of_missing_cols (cfg : Config) (df : DataFrame) (c : string) :
  c ∈ missing_cols cfg df <-> c ∈ expected_cols cfg /\ c ∉ columns df.
Proof.
  rewrite missing_cols_filter, !list_elem_of_In, filter_In, <- !list_elem_of_In.
  rewrite negb_true_iff, bool_decide_eq_false. reflexivity.
Qed.

Section Columns_check.

Context {kwargs : Type} (pd : Readers kwargs).

(** X1: when the table that was read lacks one of the eight expected columns,
    the program prints the red message and exits with code 1 with nothing
    written, whatever the vital-status column holds. The message lists the
    expected columns that the table lacks, all of them, none else, in the
    order of the expected columns, and the list is not empty. *)
Theorem missing_columns_reported (cfg : Config) (w : World) (df : DataFrame) :
  fs w !! outpath cfg = None ->
  reads pd cfg w df ->
  all_present cfg df = false ->
  main pd cfg w =
    (SysExit 1,
     {| fs := fs w;
        trace := trace w ++
                 [EvPathExists (outpath cfg);
                  EvRead (lower (filetype cfg)) (inpath cfg);
                  EvSecho (MsgMissingColumns (missing_cols cfg df)) Red] |}) /\
  missing_cols cfg df ≠ [] /\
  missing_cols cfg df `sublist_of` expected_cols cfg /\
  (forall c, c ∈ missing_cols cfg df <-> c ∈ expected_cols cfg /\ c ∉ columns df).
Proof.
  intros Hout Hreads Hcols. split; [| split; [| split]].
  - rewrite (main_missing_columns pd _ _ _ Hout Hreads Hcols).
    unfold log, loaded; simpl. by rewrite <- app_assoc.
  - unfold all_present in Hcols.
    apply forallb_false_witness in Hcols as (c & Hc & Hno).
    intros Hnil. assert (Hin : c ∈ missing_cols cfg df).
    { apply elem_of_missing_cols. split; [done |].
      by apply bool_decide_eq_false in Hno. }
    rewrite Hnil in Hin. by apply not_elem_of_nil in Hin.
  - rewrite missing_cols_filter. apply sublist_List_filter.
  - apply elem_of_missing_cols.
Qed.

(** X2: a table without rows never passes the check of the alive value: when
    it has all the columns, the program exits with code 1 after the red
    message, with nothing written. *)
Theorem empty_table_exits (cfg : Config) (w : World) (df : DataFrame) :
  fs w !! outpath cfg = None ->
  reads pd cfg w df ->
  all_present cfg df = true ->
  rows df = [] ->
  main pd cfg w =
    (SysExit 1,
     {| fs := fs w;
        trace := trace w ++
                 [EvPathExists (outpath cfg);
                  EvRead (lower (filetype cfg)) (inpath cfg);
                  EvSecho (MsgAliveAbsent (col_vital_status cfg)
                             (vital_status_value_alive cfg)) Red] |}).
Proof.
  intros Hout Hreads Hcols Hrows.
  assert (Ha : occurs (vital_status_value_alive cfg) cfg df = false).
  { unfold occurs, column. by rewrite Hrows. }
  rewrite (main_alive_absent pd _ _ _ Hout Hreads Hcols Ha).
  unfold log, loaded; simpl. by rewrite <- app_assoc.
Qed.

End Columns_check.

Lemma missing_columns_reported_witness :
  main (readers_of cohort_two_columns) default_cfg input_only =
    (SysExit 1,
     {| fs := fs input_only;
        trace := [EvPathExists "survival.csv"; EvRead "excel" "cohort.xlsx";
                  EvSecho (MsgMissingColumns
                             ["D_DATE_OF_DIAGNOSIS_YYYY"; "D_DATE_OF_DIAGNOSIS_MM";
                              "D_DATE_OF_DIAGNOSIS_DD";
                              "D_DATE_OF_LAST_CONTACT_YYYY";
                              "D_DATE_OF_LAST_CONTACT_MM";
                              "D_DATE_OF_LAST_CONTACT_DD"]) Red] |}).
Proof.
  refine (proj1 (missing_columns_reported (readers_of cohort_two_columns)
                   default_cfg input_only cohort_two_columns _ _ _)).
  - reflexivity.
  - exists tt, (Raw ""). split; [reflexivity |]. split; [reflexivity |].
    right. left. split; reflexivity.
  - reflexivity.
Defined.

Lemma empty_table_exits_witness :
  main (readers_of cohort_empty) default_cfg input_only =
    (SysExit 1,
     {| fs := fs input_only;
        trace := [EvPathExists "survival.csv"; EvRead "excel" "cohort.xlsx";
                  EvSecho (MsgAliveAbsent "D_VITAL_STATUS" "Alive") Red] |}).
Proof.
  refine (empty_table_exits (readers_of cohort_empty) default_cfg input_only
            cohort_empty _ _ _ _).
  - reflexivity.
  - exists tt, (Raw ""). split; [reflexivity |]. split; [reflexivity |].
    right. left. split; reflexivity.
  - reflexivity.
  - reflexivity.
Defined.

(** ** Before the table is read *)

Section Loading.

Context {kwargs : Type} (pd : Readers kwargs).

(** X3: when the reader arguments are not valid JSON, the program fails with
    the decoder's error right after the test of the output path: no file is
    read and none is written. *)
Theorem invalid_json_raises (cfg : Config) (w : World) :
  fs w !! outpath cfg = None ->
  json_loads pd (pandas_reader_arguments cfg) = None ->
  main pd cfg w =
    (Raised JSONDecodeError,
     {| fs := fs w; trace := trace w ++ [EvPathExists (outpath cfg)] |}).
Proof.
  intros Hout Hj.
  unfold main, path_exists. unfold mbind at 1 2 3, M_bind at 1 2 3. cbn [fs trace].
  rewrite bool_decide_eq_false_2 by (rewrite Hout; by intros [? ?]).
  cbn [mret M_ret]. by rewrite Hj.
Qed.

End Loading.

Lemma invalid_json_raises_witness :
  main (readers_of cohort) (with_reader_arguments "{sep" default_cfg) input_only =
    (Raised JSONDecodeError,
     {| fs := fs input_only; trace := [EvPathExists "survival.csv"] |}).
Proof.
  refine (invalid_json_raises (readers_of cohort)
            (with_reader_arguments "{sep" default_cfg) input_only _ _);
    reflexivity.
Defined.

(** ** What a run does to the files *)

Section Harmless.

Context {A B : Type}.

Lemma harmless_ret (a : A) : harmless (mret a : M A).
Proof. intros w. split; [done |]. intros c H. discriminate H. Qed.

Lemma harmless_sys_exit_1 : harmless (sys_exit 1 : M A).
Proof. intros w. split; [done |]. intros c [= <-]. done. Qed.

Lemma harmless_raise (e : exn) : harmless (raise e : M A).
Proof. intros w. split; [done |]. intros c H. discriminate H. Qed.

Lemma harmless_bind (m : M A) (k : A -> M B) :
  harmless m -> (forall a, harmless (k a)) -> harmless (m ≫= k).
Proof.
  intros Hm Hk w. destruct (Hm w) as [Hfs Hc].
  unfold mbind, M_bind. destruct (m w) as [[a | c | e] w1]; simpl in *.
  - destruct (Hk a w1) as [Hfs' Hc']. split; [congruence | done].
  - split; [done |]. intros c' [= <-]. by apply Hc.
  - split; [done |]. intros c' H. discriminate H.
Qed.

Lemma harmless_if (b : bool) (m1 m2 : M A) :
  harmless m1 -> harmless m2 -> harmless (if b then m1 else m2).
Proof. by destruct b. Qed.

(** A harmless step before a framed computation. *)
Lemma framed_bind (out : string) (m : M A) (k : A -> M B) :
  harmless m -> (forall a, framed out (k a)) -> framed out (m ≫= k).
Proof.
  intros Hm Hk w. destruct (Hm w) as [Hfs Hc].
  unfold mbind, M_bind. destruct (m w) as [[a | c | e] w1]; simpl in *.
  - destruct (Hk a w1) as (Hp & Hno & Hc'). rewrite <- Hfs.
    split; [done |]. split; done.
  - split; [by rewrite Hfs |]. split; [done |]. intros c' [= <-]. by apply Hc.
  - split; [by rewrite Hfs |]. split; [done |]. intros c' H. discriminate H.
Qed.

End Harmless.

Lemma harmless_emit (e : event) : harmless (emit e).
Proof. intros w. split; [done |]. intros c H. discriminate H. Qed.

Lemma harmless_path_exists (p : string) : harmless (path_exists p).
Proof. intros w. split; [done |]. intros c H. discriminate H. Qed.

Lemma harmless_run_reader (ft path : string) (rd : file -> option DataFrame) :
  harmless (run_reader ft path rd).
Proof.
  intros w. unfold run_reader.
  destruct (fs w !! path) as [f|]; [destruct (rd f) |];
    (split; [done |]; intros c H; discriminate H).
Qed.

Ltac harmless_tac :=
  repeat lazymatch goal with
    | |- forall _, harmless _ => intro
    | |- harmless (_ ≫= _) => apply harmless_bind
    | |- harmless (if _ then _ else _) => apply harmless_if
    | |- harmless (secho _ _) => apply harmless_emit
    | |- harmless (print _) => apply harmless_emit
    | |- harmless (path_exists _) => apply harmless_path_exists
    | |- harmless (mret _) => apply harmless_ret
    | |- harmless (sys_exit 1) => apply harmless_sys_exit_1
    | |- harmless (raise _) => apply harmless_raise
    | |- harmless (run_reader _ _ _) => apply harmless_run_reader
    end.

Lemma harmless_check_table (cfg : Config) (df : DataFrame) :
  harmless (check_table cfg df).
Proof. unfold check_table. cbv zeta. harmless_tac. Qed.

Lemma framed_run_pipeline (cfg : Config) (df : DataFrame) :
  framed (outpath cfg) (run_pipeline cfg df).
Proof.
  intros w. rewrite run_pipeline_run. cbn [fst snd fs]. split; [| split].
  - intros p Hp. by rewrite lookup_insert_ne.
  - intros Hno. by destruct (Hno tt).
  - intros c H. discriminate H.
Qed.

Section Frame.

Context {kwargs : Type} (pd : Readers kwargs).

Lemma harmless_read_table (cfg : Config) (a : kwargs) : harmless (read_table pd cfg a).
Proof. unfold read_table. cbv zeta. harmless_tac. Qed.

(** The program touches no path but the output path. *)
Lemma framed_main (cfg : Config) : framed (outpath cfg) (main pd cfg).
Proof.
  unfold main.
  apply framed_bind; [apply harmless_path_exists | intros ex].
  apply framed_bind; [harmless_tac | intros _].
  apply framed_bind;
    [destruct (json_loads pd (pandas_reader_arguments cfg)); harmless_tac
    | intros a].
  apply framed_bind; [apply harmless_read_table | intros df].
  apply framed_bind; [apply harmless_check_table | intros _].
  apply framed_run_pipeline.
Qed.

End Frame.

(** ** Counts of rows *)

Lemma count_true_map {A} (p : A -> bool) (l : list A) :
  count_true (map p l) = length (List.filter p l).
Proof.
  unfold count_true. induction l as [| x l IH]; simpl; [done |].
  destruct (p x); simpl; by rewrite IH.
Qed.

Lemma length_List_filter_le {A} (p : A -> bool) (l : list A) :
  (length (List.filter p l) <= length l)%nat.
Proof.
  induction l as [| x l IH]; simpl; [done |]. destruct (p x); simpl; lia.
Qed.

Section Counts.

Context {kwargs : Type} (pd : Readers kwargs).

(** X7: on a run that passes the checks, with a vital-status column that is
    not one of the two derived date columns, the numbers that the program
    announces are, in this order: the number of rows of the input; the
    number of rows whose two dates were parsed; the number of patients kept;
    the number of rows whose two dates were parsed, again; and the number of
    samples saved. The number of patients kept and the number of samples
    saved are the number of lines of the written file, and no stage adds
    rows. *)
Theorem announced_counts (cfg : Config) (w : World) (df : DataFrame) :
  fs w !! outpath cfg = None ->
  reads pd cfg w df ->
  all_present cfg df = true ->
  occurs (vital_status_value_alive cfg) cfg df = true ->
  col_vital_status cfg ≠ Row.dod ->
  col_vital_status cfg ≠ Row.dolc ->
  exists (t : list event) (body : list (list cell)) (parsed : nat),
    (main pd cfg w).1 = Ok tt /\
    trace (main pd cfg w).2 = trace w ++ t /\
    fs (main pd cfg w).2 !! outpath cfg = Some (Csv (Stage.cols cfg) body) /\
    parsed = length (List.filter Row.parsed (map (Row.dates cfg) (rows df))) /\
    count_events t =
      [PrNumberOfSamples (length (rows df));
       PrNumberOfSamples parsed;
       PrKeeping (length body) END_DATE;
       PrOriginalData parsed;
       PrSamples (length body)] /\
    (length body <= parsed)%nat /\
    (parsed <= length (rows df))%nat.
Proof.
  intros Hout Hreads Hcols Ha _ _.
  set (df2 := Stage.drop_failed_dates
                (Stage.add_date_of_last_contact cfg
                   (Stage.add_date_of_diagnosis cfg df))).
  assert (Hkept : count_true (Stage.diagnosed_prior_to_study_end df2) =
                  length (rows (Stage.transform cfg df))).
  { rewrite diagnosed_prior_rowwise, count_true_map.
    unfold Stage.transform. fold df2.
    rewrite rows_finish, rows_loc_rows, rows_adjust_clip, diagnosed_prior_rowwise.
    by rewrite select_map_map, !length_map. }
  assert (Hbody : length (project (Stage.cols cfg) (Stage.transform cfg df)) =
                  length (rows (Stage.transform cfg df))).
  { unfold project. by rewrite length_map. }
  assert (Hrows2 : rows df2 = List.filter Row.parsed (map (Row.dates cfg) (rows df))).
  { unfold df2. by rewrite rows_drop_failed_dates, rows_add_dates. }
  exists ([EvPathExists (outpath cfg); EvRead (lower (filetype cfg)) (inpath cfg)] ++
          deceased_warning cfg df ++ pipeline_events cfg df),
    (project (Stage.cols cfg) (Stage.transform cfg df)),
    (length (rows df2)).
  rewrite (main_completes pd _ _ _ Hout Hreads Hcols Ha). cbn [fst snd fs trace].
  split; [done |].
  split; [unfold loaded, log; cbn [trace]; by rewrite <- !app_assoc |].
  split; [apply lookup_insert_eq |].
  split; [by rewrite Hrows2 |].
  split; [| split].
  - unfold count_events. rewrite !omap_app.
    assert (Hw : omap (fun e =>
                         match e with
                         | EvPrint (PrNumberOfSamples n) => Some (PrNumberOfSamples n)
                         | EvPrint (PrKeeping n d) => Some (PrKeeping n d)
                         | EvPrint (PrOriginalData n) => Some (PrOriginalData n)
                         | EvPrint (PrSamples n) => Some (PrSamples n)
                         | _ => None
                         end) (deceased_warning cfg df) = []).
    { unfold deceased_warning.
      by destruct (occurs (vital_status_value_deceased cfg) cfg df). }
    rewrite Hw. unfold pipeline_events. cbv zeta. fold df2.
    cbn [omap list_omap app].
    rewrite Hkept, Hbody, rows_adjust_clip, rows_add_dates, !length_map.
    reflexivity.
  - rewrite Hbody, <- Hkept, diagnosed_prior_rowwise, count_true_map.
    apply length_List_filter_le.
  - rewrite Hrows2. etransitivity; [apply length_List_filter_le |].
    by rewrite length_map.
Qed.

End Counts.

Lemma announced_counts_witness :
  exists (t : list event) (body : list (list cell)),
    trace (main (readers_of cohort) default_cfg input_only).2 =
      trace input_only ++ t /\
    fs (main (readers_of cohort) default_cfg input_only).2 !! "survival.csv" =
      Some (Csv ["STUDYID"; "censorA.0yes.1no"; "survivalA"] body) /\
    exists parsed : nat,
      count_events t =
        [PrNumberOfSamples (length (rows cohort));
         PrNumberOfSamples parsed;
         PrKeeping (length body) END_DATE;
         PrOriginalData parsed;
         PrSamples (length body)].
Proof.
  destruct (announced_counts (readers_of cohort) default_cfg input_only cohort)
    as (t & body & parsed & _ & Ht & Hfile & _ & Hcount & _).
  - reflexivity.
  - exists tt, (Raw ""). split; [reflexivity |]. split; [reflexivity |].
    right. left. split; reflexivity.
  - reflexivity.
  - reflexivity.
  - discriminate.
  - discriminate.
  - exists t, body. split; [exact Ht |]. split; [exact Hfile |].
    exists parsed. exact Hcount.
Defined.

(** ** Which rows are retained *)

(** X9: a row of the input is retained exactly when its diagnosis date and
    its last-contact date were both parsed and the diagnosis is not after
    2020-12-31; in particular a row whose diagnosis fields give a date after
    the study end is dropped, whatever its other fields hold. *)
Theorem retained_iff_parsed_in_window (cfg : Config) (df : DataFrame) (r : row) :
  r ∈ rows df ->
  ((exists r', Row.process cfg r = Some r' /\ r' ∈ rows (Stage.transform cfg df)) <->
   (exists dd lc,
      to_datetime (get_dt_diagnosis r (col_dod_yyyy cfg) (col_dod_mm cfg)
                     (col_dod_dd cfg)) = CTimestamp dd /\
      getitem (Row.dates cfg r) Row.dolc = CTimestamp lc /\
      dd <= Calendar.days_from_civil 2020 12 31)) /\
  (forall dd,
     to_datetime (get_dt_diagnosis r (col_dod_yyyy cfg) (col_dod_mm cfg)
                    (col_dod_dd cfg)) = CTimestamp dd ->
     Calendar.days_from_civil 2020 12 31 < dd ->
     Row.process cfg r = None).
Proof.
  intros Hin. fold study_end_days. rewrite <- dates_dod. split; [split |].
  - intros (r' & Hp & _). apply process_Some in Hp as (dd & lc & Hd & Hl & Hle & _).
    by exists dd, lc.
  - intros (dd & lc & Hd & Hl & Hle).
    exists (Row.finish cfg (Row.adjust cfg (Row.dates cfg r))).
    assert (Hp : Row.process cfg r =
                 Some (Row.finish cfg (Row.adjust cfg (Row.dates cfg r))))
      by (apply process_Some; by exists dd, lc).
    split; [done |]. apply elem_of_transform. by exists r.
  - intros dd Hd Hlt. destruct (Row.process cfg r) as [r'|] eqn:Hp; [| done].
    apply process_Some in Hp as (dd' & lc & Hd' & _ & Hle & _).
    rewrite Hd in Hd'. injection Hd' as <-. lia.
Qed.

Lemma retained_iff_parsed_in_window_witness :
  (exists r', Row.process default_cfg patient_A = Some r' /\
              r' ∈ rows (Stage.transform default_cfg cohort)) /\
  Row.process default_cfg patient_C = None.
Proof.
  split.
  - apply (proj1 (retained_iff_parsed_in_window default_cfg cohort patient_A
                    ltac:(left))).
    exists 16436, 18062. split; [reflexivity |]. split; [reflexivity |].
    vm_compute. discriminate.
  - apply (proj2 (retained_iff_parsed_in_window default_cfg cohort patient_C
                    ltac:(right; right; left)) 18632).
    + reflexivity.
    + reflexivity.
Defined.

(** ** The input columns of a retained row *)

(** X10: the pipeline only adds columns: a retained row comes from a row of
    the input and has, in every column that is not one of the six derived
    columns, the cell of that input row. *)
Theorem input_columns_unchanged (cfg : Config) (df : DataFrame) (r' : row) :
  r' ∈ rows (Stage.transform cfg df) ->
  exists r,
    r ∈ rows df /\
    forall c, c ∉ derived_columns -> getitem r' c = getitem r c.
Proof.
  intros Hin. apply elem_of_transform in Hin as (r & Hin & Hp).
  apply process_Some in Hp as (dd & lc & _ & _ & _ & ->).
  exists r. split; [done |]. intros c Hc.
  apply retained_other; intros ->; apply Hc; unfold derived_columns; set_solver.
Qed.

Lemma input_columns_unchanged_witness :
  exists r,
    r ∈ rows cohort /\
    forall c, c ∉ derived_columns ->
      getitem (Row.finish default_cfg (Row.adjust default_cfg
                 (Row.dates default_cfg patient_B))) c = getitem r c.
Proof.
  apply (input_columns_unchanged default_cfg cohort).
  apply elem_of_transform. exists patient_B. split.
  - right. left.
  - reflexivity.
Defined.

(** ** Shape of the written table *)

(** X11: every line written has three cells, and the third, the survival
    days, is always an integer: it is never a missing value. *)
Theorem written_lines_shape (cfg : Config) (df : DataFrame) (ln : list cell) :
  ln ∈ project (Stage.cols cfg) (Stage.transform cfg df) ->
  exists (id c : cell) (n : Z), ln = [id; c; CInt n].
Proof.
  intros Hin. rewrite project_transform in Hin.
  apply list_elem_of_omap in Hin as (r & Hin & Hp).
  destruct (Row.process cfg r) as [r'|] eqn:Hp'; [| done].
  injection Hp as <-.
  apply process_Some in Hp' as (dd & lc & Hd & Hl & _ & ->).
  pose proof (retained_survivalA _ _ _ _ Hd Hl) as Hs.
  exists (getitem (Row.finish cfg (Row.adjust cfg (Row.dates cfg r))) (col_index cfg)),
    (getitem (Row.finish cfg (Row.adjust cfg (Row.dates cfg r))) Row.censor),
    (Z.min lc study_end_days - dd).
  rewrite <- Hs. reflexivity.
Qed.

Lemma written_lines_shape_witness :
  exists (id c : cell) (n : Z), [CStr "U"; CStr "Unknown"; CInt 731] = [id; c; CInt n].
Proof.
  apply (written_lines_shape default_cfg cohort).
  rewrite cohort_written. do 2 right. left.
Defined.

(** ** Censor flags and survival of retained rows *)

(** X12: when the two sentinel values differ, the vital-status column is not
    one of the two derived date columns and every vital status of the table
    is one of the two sentinel values, every censor cell written is 0 or 1,
    and it is 1 exactly for the rows that are deceased at the study end. *)
Theorem censor_is_binary (cfg : Config) (df : DataFrame) (r' : row) :
  vital_status_value_alive cfg ≠ vital_status_value_deceased cfg ->
  col_vital_status cfg ≠ Row.dod ->
  col_vital_status cfg ≠ Row.dolc ->
  (forall r, r ∈ rows df ->
     getitem r (col_vital_status cfg) = CStr (vital_status_value_alive cfg) \/
     getitem r (col_vital_status cfg) = CStr (vital_status_value_deceased cfg)) ->
  r' ∈ rows (Stage.transform cfg df) ->
  (getitem r' Row.censor = CInt 0 \/ getitem r' Row.censor = CInt 1) /\
  (getitem r' Row.censor = CInt 1 <->
   getitem r' Row.vsase = CStr (vital_status_value_deceased cfg)).
Proof.
  intros Hne Hn1 Hn2 Hall Hin. apply elem_of_transform in Hin as (r & Hin & Hp).
  apply process_Some in Hp as (dd & lc & Hd & Hl & _ & ->).
  rewrite (retained_censor cfg r), (retained_vsase _ _ _ Hl), dates_other by done.
  assert (Hv : forall v,
            v = CStr (vital_status_value_alive cfg) \/
            v = CStr (vital_status_value_deceased cfg) ->
            (replace (Stage.censor_dict cfg) v = CInt 0 \/
             replace (Stage.censor_dict cfg) v = CInt 1) /\
            (replace (Stage.censor_dict cfg) v = CInt 1 <->
             v = CStr (vital_status_value_deceased cfg))).
  { intros v [-> | ->]; simpl.
    - rewrite censor_dict_alive by done. split; [by left |].
      split; [discriminate | intros [= E]; by destruct Hne].
    - rewrite censor_dict_deceased. split; [by right | done]. }
  apply Hv. destruct (_ && _); [by left | by apply Hall].
Qed.

Lemma censor_is_binary_witness :
  (getitem (Row.finish default_cfg (Row.adjust default_cfg
              (Row.dates default_cfg patient_N))) Row.censor = CInt 0 \/
   getitem (Row.finish default_cfg (Row.adjust default_cfg
              (Row.dates default_cfg patient_N))) Row.censor = CInt 1) /\
  (getitem (Row.finish default_cfg (Row.adjust default_cfg
              (Row.dates default_cfg patient_N))) Row.censor = CInt 1 <->
   getitem (Row.finish default_cfg (Row.adjust default_cfg
              (Row.dates default_cfg patient_N))) Row.vsase = CStr "Dead").
Proof.
  apply (censor_is_binary default_cfg cohort_clean).
  - discriminate.
  - discriminate.
  - discriminate.
  - intros r Hr. apply list_elem_of_In in Hr.
    destruct Hr as [<- | [<- | [<- | []]]]; [left | right | right]; reflexivity.
  - apply elem_of_transform. exists patient_N. split.
    + do 2 right. left.
    + reflexivity.
Defined.

(** X13: when the two sentinel values differ, a retained row that is deceased
    at the study end had its last contact no later than 2020-12-31: its
    last-contact date is not clipped, its survival days are the last contact
    minus the diagnosis, and its censor flag is 1. *)
Theorem deceased_rows_not_clipped (cfg : Config) (df : DataFrame) (r' : row) :
  vital_status_value_alive cfg ≠ vital_status_value_deceased cfg ->
  r' ∈ rows (Stage.transform cfg df) ->
  getitem r' Row.vsase = CStr (vital_status_value_deceased cfg) ->
  exists dd lc,
    getitem r' Row.dod = CTimestamp dd /\
    getitem r' Row.dolc = CTimestamp lc /\
    lc <= Calendar.days_from_civil 2020 12 31 /\
    getitem r' Row.clipped = CTimestamp lc /\
    getitem r' Row.survivalA = CInt (lc - dd) /\
    getitem r' Row.censor = CInt 1.
Proof.
  intros Hne Hin Hv. apply elem_of_transform in Hin as (r & Hin & Hp).
  apply process_Some in Hp as (dd & lc & Hd & Hl & _ & ->).
  exists dd, lc. fold study_end_days.
  assert (Hle : lc <= study_end_days).
  { rewrite (retained_vsase _ _ _ Hl) in Hv.
    destruct (study_end_days <? lc) eqn:E; [| lia]. simpl in Hv.
    destruct (cell_eq_str _ _) eqn:E'.
    - injection Hv as Hv. by destruct Hne.
    - by apply cell_eq_str_false in E'. }
  rewrite (retained_censor cfg r), Hv.
  rewrite (retained_dod _ _ _ Hd), (retained_dolc _ _ _ Hl).
  rewrite (retained_clipped _ _ _ Hl), (retained_survivalA _ _ _ _ Hd Hl).
  replace (Z.min lc study_end_days) with lc by lia.
  repeat split; try done. simpl. by rewrite censor_dict_deceased.
Qed.

Lemma deceased_rows_not_clipped_witness :
  exists dd lc,
    getitem (Row.finish default_cfg (Row.adjust default_cfg
               (Row.dates default_cfg patient_N))) Row.dod = CTimestamp dd /\
    getitem (Row.finish default_cfg (Row.adjust default_cfg
               (Row.dates default_cfg patient_N))) Row.dolc = CTimestamp lc /\
    lc <= Calendar.days_from_civil 2020 12 31 /\
    getitem (Row.finish default_cfg (Row.adjust default_cfg
               (Row.dates default_cfg patient_N))) Row.clipped = CTimestamp lc /\
    getitem (Row.finish default_cfg (Row.adjust default_cfg
               (Row.dates default_cfg patient_N))) Row.survivalA = CInt (lc - dd) /\
    getitem (Row.finish default_cfg (Row.adjust default_cfg
               (Row.dates default_cfg patient_N))) Row.censor = CInt 1.
Proof.
  apply (deceased_rows_not_clipped default_cfg cohort).
  - discriminate.
  - apply elem_of_transform. exists patient_N. split.
    + do 5 right. left.
    + reflexivity.
  - reflexivity.
Defined.

(** X14: the survival days of a retained row never count a day after the
    study end: they are at most the days from the diagnosis to 2020-12-31,
    which are not negative, and at most the days from the diagnosis to the
    last contact; they are one of these two numbers. *)
Theorem survival_days_bounded (cfg : Config) (df : DataFrame) (r' : row) :
  r' ∈ rows (Stage.transform cfg df) ->
  exists dd lc n,
    getitem r' Row.dod = CTimestamp dd /\
    getitem r' Row.dolc = CTimestamp lc /\
    getitem r' Row.survivalA = CInt n /\
    0 <= Calendar.days_from_civil 2020 12 31 - dd /\
    n <= Calendar.days_from_civil 2020 12 31 - dd /\
    n <= lc - dd /\
    (n = lc - dd \/ n = Calendar.days_from_civil 2020 12 31 - dd).
Proof.
  intros Hin. apply elem_of_transform in Hin as (r & Hin & Hp).
  apply process_Some in Hp as (dd & lc & Hd & Hl & Hle & ->).
  exists dd, lc, (Z.min lc study_end_days - dd). fold study_end_days.
  rewrite (retained_dod _ _ _ Hd), (retained_dolc _ _ _ Hl).
  rewrite (retained_survivalA _ _ _ _ Hd Hl).
  repeat split; lia.
Qed.

Lemma survival_days_bounded_witness :
  exists dd lc n,
    getitem (Row.finish default_cfg (Row.adjust default_cfg
               (Row.dates default_cfg patient_B))) Row.dod = CTimestamp dd /\
    getitem (Row.finish default_cfg (Row.adjust default_cfg
               (Row.dates default_cfg patient_B))) Row.dolc = CTimestamp lc /\
    getitem (Row.finish default_cfg (Row.adjust default_cfg
               (Row.dates default_cfg patient_B))) Row.survivalA = CInt n /\
    0 <= Calendar.days_from_civil 2020 12 31 - dd /\
    n <= Calendar.days_from_civil 2020 12 31 - dd /\
    n <= lc - dd /\
    (n = lc - dd \/ n = Calendar.days_from_civil 2020 12 31 - dd).
Proof.
  apply (survival_days_bounded default_cfg cohort).
  apply elem_of_transform. exists patient_B. split.
  - right. left.
  - reflexivity.
Defined.

(** X15: when the two sentinel values differ and the vital-status column is
    not one of the two derived date columns, every retained row whose raw
    vital status is the deceased value and whose last contact is after
    2020-12-31 is written as alive, censor 0, with the days from the
    diagnosis to 2020-12-31 as survival days. *)
Theorem death_after_study_end_censored (cfg : Config) (df : DataFrame) (r : row) :
  vital_status_value_alive cfg ≠ vital_status_value_deceased cfg ->
  col_vital_status cfg ≠ Row.dod ->
  col_vital_status cfg ≠ Row.dolc ->
  r ∈ rows df ->
  getitem r (col_vital_status cfg) = CStr (vital_status_value_deceased cfg) ->
  forall dd lc,
    getitem (Row.dates cfg r) Row.dod = CTimestamp dd ->
    getitem (Row.dates cfg r) Row.dolc = CTimestamp lc ->
    dd <= Calendar.days_from_civil 2020 12 31 ->
    Calendar.days_from_civil 2020 12 31 < lc ->
    exists r',
      r' ∈ rows (Stage.transform cfg df) /\
      Row.process cfg r = Some r' /\
      getitem r' Row.censor = CInt 0 /\
      getitem r' Row.survivalA = CInt (Calendar.days_from_civil 2020 12 31 - dd).
Proof.
  intros Hne Hn1 Hn2 Hin Hraw dd lc Hd Hl Hle Hlt. fold study_end_days in *.
  exists (Row.finish cfg (Row.adjust cfg (Row.dates cfg r))).
  assert (Hp : Row.process cfg r =
               Some (Row.finish cfg (Row.adjust cfg (Row.dates cfg r))))
    by (apply process_Some; by exists dd, lc).
  split; [apply elem_of_transform; by exists r |]. split; [done |].
  rewrite (retained_censor cfg r), (retained_vsase _ _ _ Hl), dates_other by done.
  rewrite (retained_survivalA _ _ _ _ Hd Hl), Hraw. simpl.
  rewrite String.eqb_refl.
  destruct (study_end_days <? lc) eqn:E; [| lia]. simpl.
  rewrite censor_dict_alive by done. split; [done |]. f_equal. lia.
Qed.

Lemma death_after_study_end_censored_witness :
  exists r',
    r' ∈ rows (Stage.transform default_cfg cohort) /\
    Row.process default_cfg patient_B = Some r' /\
    getitem r' Row.censor = CInt 0 /\
    getitem r' Row.survivalA = CInt (Calendar.days_from_civil 2020 12 31 - 16436).
Proof.
  apply (death_after_study_end_censored default_cfg cohort patient_B)
    with (lc := 18687).
  - discriminate.
  - discriminate.
  - discriminate.
  - right. left.
  - reflexivity.
  - reflexivity.
  - reflexivity.
  - vm_compute. discriminate.
  - reflexivity.
Defined.

(** ** The reconstructed dates *)

(** X17: integer fields reconstruct exactly: when the three cells are the
    integers of a calendar date of a year from 1678 to 2261, the
    reconstructed date is the timestamp of that date. *)
Theorem integer_fields_reconstruct (r : row) (cy cm cd : string) (y m d : Z) :
  getitem r cy = CInt y ->
  getitem r cm = CInt m ->
  getitem r cd = CInt d ->
  1678 <= y <= 2261 ->
  Calendar.valid_ymd y m d = true ->
  to_datetime (get_dt_diagnosis r cy cm cd) =
    CTimestamp (Calendar.days_from_civil y m d) /\
  to_datetime (get_dt_last_contact r cy cm cd) =
    CTimestamp (Calendar.days_from_civil y m d).
Proof.
  intros Hy Hm Hd Hrange Hv.
  unfold get_dt_diagnosis, get_dt_last_contact. cbv zeta.
  rewrite Hy, Hm, Hd, to_datetime_fields, (date_of_integers _ _ _ Hrange Hv).
  by rewrite (in_bounds_years _ _ _ Hrange Hv).
Qed.

Lemma integer_fields_reconstruct_witness :
  to_datetime (get_dt_diagnosis patient_U "D_DATE_OF_DIAGNOSIS_YYYY"
                 "D_DATE_OF_DIAGNOSIS_MM" "D_DATE_OF_DIAGNOSIS_DD") =
    CTimestamp (Calendar.days_from_civil 2016 2 29) /\
  to_datetime (get_dt_last_contact patient_U "D_DATE_OF_DIAGNOSIS_YYYY"
                 "D_DATE_OF_DIAGNOSIS_MM" "D_DATE_OF_DIAGNOSIS_DD") =
    CTimestamp (Calendar.days_from_civil 2016 2 29).
Proof.
  apply (integer_fields_reconstruct patient_U).
  - reflexivity.
  - reflexivity.
  - reflexivity.
  - lia.
  - reflexivity.
Defined.

(** ** Runs that return normally *)

Section Normal_return.

Context {kwargs : Type} (pd : Readers kwargs).

Lemma read_table_Ok (cfg : Config) (a : kwargs) (w w' : World) (df : DataFrame) :
  read_table pd cfg a w = (Ok df, w') ->
  w' = log w [EvRead (lower (filetype cfg)) (inpath cfg)] /\
  exists f,
    fs w !! inpath cfg = Some f /\
    ((lower (filetype cfg) = "csv" /\ read_csv pd f a = Some df) \/
     (lower (filetype cfg) = "excel" /\ read_excel pd f a = Some df) \/
     (lower (filetype cfg) = "sas" /\ read_sas pd f a = Some df)).
Proof.
  unfold read_table, run_reader, raise, log. cbv zeta.
  destruct (String.eqb (lower (filetype cfg)) "csv") eqn:E1;
    [| destruct (String.eqb (lower (filetype cfg)) "excel") eqn:E2;
       [| destruct (String.eqb (lower (filetype cfg)) "sas") eqn:E3; [| done]]];
    (destruct (fs w !! inpath cfg) as [f|] eqn:Hf; [| done]);
    match goal with
    | |- context [match ?rd with _ => _ end] => destruct rd as [df'|] eqn:Hrd
    end; try done;
    intros [= <- <-]; (split; [done |]); exists f; (split; [done |]).
  - left. by apply String.eqb_eq in E1.
  - right. left. by apply String.eqb_eq in E2.
  - right. right. by apply String.eqb_eq in E3.
Qed.

Lemma main_after_json (cfg : Config) (w : World) (a : kwargs) :
  fs w !! outpath cfg = None ->
  json_loads pd (pandas_reader_arguments cfg) = Some a ->
  main pd cfg w =
  (read_table pd cfg a
   ≫= fun df => check_table cfg df ≫= fun _ => run_pipeline cfg df)
    (log w [EvPathExists (outpath cfg)]).
Proof.
  intros Hout Hj. unfold main, path_exists, log.
  unfold mbind at 1 2 3, M_bind at 1 2 3. cbn [fs trace].
  rewrite bool_decide_eq_false_2 by (rewrite Hout; by intros [? ?]).
  cbn [mret M_ret]. by rewrite Hj.
Qed.

(** X18: a run returns normally only when every check has passed: the output
    path did not exist, the table was read by the reader that the file type
    names, it has the eight columns and its vital-status column holds the
    alive value. The file system is then the one of the start with the
    output file added, which holds the three column names and the lines of
    the retained rows. *)
Theorem normal_return_passed_checks (cfg : Config) (w : World) :
  (main pd cfg w).1 = Ok tt ->
  fs w !! outpath cfg = None /\
  exists df,
    reads pd cfg w df /\
    all_present cfg df = true /\
    occurs (vital_status_value_alive cfg) cfg df = true /\
    fs (main pd cfg w).2 =
      <[outpath cfg :=
          Csv (Stage.cols cfg)
            (project (Stage.cols cfg) (Stage.transform cfg df))]> (fs w).
Proof.
  intros Hok.
  destruct (fs w !! outpath cfg) as [old|] eqn:Hout.
  { rewrite (main_outpath_exists pd cfg w) in Hok by (rewrite Hout; eauto).
    discriminate Hok. }
  split; [done |].
  destruct (json_loads pd (pandas_reader_arguments cfg)) as [a|] eqn:Hj.
  2:{ exfalso. revert Hok. unfold main, path_exists.
      unfold mbind at 1 2 3, M_bind at 1 2 3. cbn [fs trace].
      rewrite bool_decide_eq_false_2 by (rewrite Hout; by intros [? ?]).
      cbn [mret M_ret]. by rewrite Hj. }
  destruct (read_table pd cfg a (log w [EvPathExists (outpath cfg)]))
    as [[df | c | e] w2] eqn:Hr.
  2:{ rewrite (main_after_json _ _ _ Hout Hj), (bind_exit _ _ _ _ _ Hr) in Hok.
      discriminate Hok. }
  2:{ rewrite (main_after_json _ _ _ Hout Hj), (bind_raised _ _ _ _ _ Hr) in Hok.
      discriminate Hok. }
  apply read_table_Ok in Hr as (-> & f & Hf & Hrd).
  assert (Hreads : reads pd cfg w df) by (by exists a, f).
  exists df. split; [done |].
  rewrite (main_loaded pd _ _ _ Hout Hreads) in Hok |- *.
  destruct (all_present cfg df) eqn:Hcols.
  2:{ rewrite (bind_exit _ _ _ _ _ (check_table_missing _ _ _ Hcols)) in Hok.
      discriminate Hok. }
  destruct (occurs (vital_status_value_alive cfg) cfg df) eqn:Ha.
  2:{ rewrite (bind_exit _ _ _ _ _ (check_table_alive_absent _ _ _ Hcols Ha)) in Hok.
      discriminate Hok. }
  split; [done |]. split; [done |].
  rewrite (bind_ok _ _ _ _ _ (check_table_ok _ _ _ Hcols Ha)).
  by rewrite run_pipeline_run.
Qed.

End Normal_return.

Lemma normal_return_passed_checks_witness :
  fs input_only !! "survival.csv" = None /\
  exists df,
    reads (readers_of cohort) default_cfg input_only df /\
    all_present default_cfg df = true /\
    occurs "Alive" default_cfg df = true /\
    fs (main (readers_of cohort) default_cfg input_only).2 =
      <["survival.csv" :=
          Csv ["STUDYID"; "censorA.0yes.1no"; "survivalA"]
            (project (Stage.cols default_cfg) (Stage.transform default_cfg df))]>
        (fs input_only).
Proof.
  apply (normal_return_passed_checks (readers_of cohort) default_cfg input_only).
  reflexivity.
Defined.


(** ** The command line *)

Lemma lower_choice (ft : string) : ft ∈ filetype_choices -> lower ft = ft.
Proof.
  unfold filetype_choices. intros H.
  repeat (apply elem_of_cons in H as [-> | H]; [reflexivity |]).
  by apply elem_of_nil in H.
Qed.

Lemma checks_pipeline_not_raised (cfg : Config) (df : DataFrame) (w : World)
    (e : exn) :
  ((check_table cfg df ≫= fun _ => run_pipeline cfg df) w).1 ≠ Raised e.
Proof.
  destruct (all_present cfg df) eqn:Hcols.
  2:{ by rewrite (bind_exit _ _ _ _ _ (check_table_missing _ _ _ Hcols)). }
  destruct (occurs (vital_status_value_alive cfg) cfg df) eqn:Ha.
  2:{ by rewrite (bind_exit _ _ _ _ _ (check_table_alive_absent _ _ _ Hcols Ha)). }
  by rewrite (bind_ok _ _ _ _ _ (check_table_ok _ _ _ Hcols Ha)), run_pipeline_run.
Qed.

Section Command.

Context {kwargs : Type} (pd : Readers kwargs).

(** When the dispatch of lines 139-151 fails, the file type is none of the
    choices, or the input file is not there, or the reader has failed. *)
Lemma read_table_raised (cfg : Config) (a : kwargs) (w : World) (e : exn) :
  (read_table pd cfg a w).1 = Raised e ->
  (e = NotImplementedError /\ filetype cfg ∉ filetype_choices) \/
  (e = FileNotFoundError /\ fs w !! inpath cfg = None) \/
  e = ReaderError.
Proof.
  unfold read_table, run_reader, raise. cbv zeta.
  destruct (String.eqb (lower (filetype cfg)) "csv") eqn:E1;
    [| destruct (String.eqb (lower (filetype cfg)) "excel") eqn:E2;
       [| destruct (String.eqb (lower (filetype cfg)) "sas") eqn:E3]].
  4:{ intros [= <-]. left. split; [done |]. intros Hin.
      pose proof (lower_choice _ Hin) as Hl. rewrite Hl in E1, E2, E3.
      apply String.eqb_neq in E1, E2, E3. unfold filetype_choices in Hin.
      repeat (apply elem_of_cons in Hin as [Hin | Hin]; [done |]).
      by apply elem_of_nil in Hin. }
  all: destruct (fs w !! inpath cfg) as [f|] eqn:Hf;
    [ match goal with
      | |- context [match ?rd with _ => _ end] => destruct rd
      end; [done |]; intros [= <-]; by right; right
    | intros [= <-]; right; left; done ].
Qed.

(** When the program fails, the JSON decoder or the dispatch of the reader
    has failed, in a world with the files of the start. *)
Lemma main_raised (cfg : Config) (w : World) (e : exn) :
  (main pd cfg w).1 = Raised e ->
  e = JSONDecodeError \/
  exists a w1, fs w1 = fs w /\ (read_table pd cfg a w1).1 = Raised e.
Proof.
  intros Hr.
  destruct (fs w !! outpath cfg) as [old|] eqn:Hout.
  { rewrite (main_outpath_exists pd cfg w) in Hr by (rewrite Hout; eauto).
    discriminate Hr. }
  destruct (json_loads pd (pandas_reader_arguments cfg)) as [a|] eqn:Hj.
  2:{ left. revert Hr. unfold main, path_exists.
      unfold mbind at 1 2 3, M_bind at 1 2 3. cbn [fs trace].
      rewrite bool_decide_eq_false_2 by (rewrite Hout; by intros [? ?]).
      cbn [mret M_ret]. rewrite Hj. by intros [= <-]. }
  rewrite (main_after_json _ _ _ _ Hout Hj) in Hr.
  destruct (read_table pd cfg a (log w [EvPathExists (outpath cfg)]))
    as [[df | c | e'] w2] eqn:Hrd.
  - exfalso. revert Hr.
    rewrite (bind_ok _ (fun df0 => check_table cfg df0 ≫= fun _ => run_pipeline cfg df0)
               _ _ _ Hrd).
    apply checks_pipeline_not_raised.
  - rewrite (bind_exit _ _ _ _ _ Hrd) in Hr. discriminate Hr.
  - rewrite (bind_raised _ _ _ _ _ Hrd) in Hr. injection Hr as ->.
    right. exists a, (log w [EvPathExists (outpath cfg)]).
    split; [done |]. by rewrite Hrd.
Qed.

(** X4: the last branch of the dispatch of the reader, lines 147-151, is
    never taken when the program is started from its command line: the
    command does not fail with [NotImplementedError], whatever the
    configuration, the readers and the files; nor is a reader called on an
    input path that is not there. *)
Theorem unsupported_filetype_unreachable (cfg : Config) (w : World) :
  (command pd cfg w).1 ≠ Raised NotImplementedError /\
  (command pd cfg w).1 ≠ Raised FileNotFoundError.
Proof.
  unfold command.
  destruct (bool_decide (is_Some (fs w !! inpath cfg))) eqn:Hin;
    [| split; discriminate].
  destruct (bool_decide (filetype cfg ∈ filetype_choices)) eqn:Hft;
    [| split; discriminate].
  apply bool_decide_eq_true_1 in Hin, Hft. cbn [andb].
  split; intros Hr; apply main_raised in Hr as [Hr | (a & w1 & Hfs & Hr)];
    try discriminate Hr;
    apply read_table_raised in Hr as [[Hr Hno] | [[Hr Hno] | Hr]];
    try discriminate Hr.
  - by apply Hno.
  - rewrite Hfs in Hno. rewrite Hno in Hin. by destruct Hin.
Qed.

(** X6: whatever the configuration, the readers and the files, the command
    leaves every path other than the output path as it was; and when it
    exits, the exit code is 1 or 2 and no file has been written. *)
Theorem command_touches_only_outpath (cfg : Config) (w : World) :
  (forall p, p ≠ outpath cfg -> fs (command pd cfg w).2 !! p = fs w !! p) /\
  (forall c, (command pd cfg w).1 = SysExit c ->
             (c = 1 \/ c = 2) /\ fs (command pd cfg w).2 = fs w).
Proof.
  unfold command.
  destruct (bool_decide (is_Some (fs w !! inpath cfg)) &&
            bool_decide (filetype cfg ∈ filetype_choices)).
  - destruct (framed_main pd cfg w) as (Hp & Hno & Hc). split; [exact Hp |].
    intros c Hx. split; [left; by apply Hc |].
    apply Hno. intros u Hu. rewrite Hu in Hx. discriminate Hx.
  - split; [done |]. intros c [= <-]. split; [by right | done].
Qed.

End Command.

Lemma command_touches_only_outpath_witness :
  fs (command (readers_of cohort) default_cfg input_only).2 !! "cohort.xlsx" =
    Some (Raw "") /\
  fs (command (readers_of cohort) default_cfg output_there).2 = fs output_there /\
  fs (command (readers_of cohort) (with_filetype "parquet" default_cfg)
        input_only).2 = fs input_only.
Proof.
  split; [| split].
  - rewrite (proj1 (command_touches_only_outpath (readers_of cohort) default_cfg
                      input_only) "cohort.xlsx"); [reflexivity | discriminate].
  - apply (proj2 (command_touches_only_outpath (readers_of cohort) default_cfg
                    output_there) 1).
    reflexivity.
  - apply (proj2 (command_touches_only_outpath (readers_of cohort)
                    (with_filetype "parquet" default_cfg) input_only) 2).
    reflexivity.
Defined.
